(** * Sentiment-IQ: the sentiment gateway and its rule-based fallback scorer

    A shallow embedding of

    - [backend/services/sentimentService.js] (class [SentimentService]),
    - [backend/routes/sentiment.js] and [backend/routes/health.js]
      (the [/analyze], [/batch] and [/health] handlers),
    - the serverless fallback scorer [analyzeSentimentSimple],

    together with the properties the specification states about them.

    Conventions of the embedding.

    - A JavaScript number that carries a measurement or a probability is an
      IEEE 754 binary64 value, here a primitive [float]; its arithmetic is
      the primitive arithmetic of the kernel, which is the arithmetic of the
      JavaScript engine.
    - The request counters and the millisecond samples of [ServiceStats] are
      integers; they are modelled in [Z].  Double arithmetic on integers is
      exact as long as every intermediate value stays below [2^52], which is
      the range the counters of a process live in.
    - A string is a sequence of 8-bit characters (the Latin-1 block of
      UTF-16 code units).
    - A value decoded from JSON is a [jsval]; an object is the list of its
      own properties in property order, with distinct keys.
    - An exception is a value of [completion]: a function that may throw
      returns [Throws e] and its caller propagates or catches it as the
      source does. *)

From Stdlib Require Import ZArith QArith Qround Qabs List String Ascii Bool Lia Lqa.
From Stdlib Require Import DecimalString Uint63 PrimFloat FloatOps SpecFloat.
Import ListNotations.

Set Warnings "-inexact-float,-register-all".
Set Implicit Arguments.

Local Open Scope string_scope.
Local Open Scope Z_scope.

(* ================================================================== *)
(** * The JavaScript runtime the sources rely on *)
(* ================================================================== *)

Module JS.

(** ** Strings *)

(** The characters [\s] matches, restricted to one-byte code units. *)
Definition isWhitespace (c : ascii) : bool :=
  let n := nat_of_ascii c in
  ((9 <=? n)%nat && (n <=? 13)%nat) || (n =? 32)%nat || (n =? 160)%nat.

Fixpoint ltrim (s : string) : string :=
  match s with
  | EmptyString => EmptyString
  | String c s' => if isWhitespace c then ltrim s' else s
  end.

Fixpoint rtrim (s : string) : string :=
  match s with
  | EmptyString => EmptyString
  | String c s' =>
      match rtrim s' with
      | EmptyString => if isWhitespace c then EmptyString else String c EmptyString
      | r => String c r
      end
  end.

(** [String.prototype.trim], and the [trim] sanitizer of validator.js. *)
Definition trim (s : string) : string := rtrim (ltrim s).

Definition lowerChar (c : ascii) : ascii :=
  let n := nat_of_ascii c in
  if ((65 <=? n)%nat && (n <=? 90)%nat)
     || ((192 <=? n)%nat && (n <=? 222)%nat && negb (n =? 215)%nat)
  then ascii_of_nat (n + 32) else c.

(** [String.prototype.toLowerCase]. *)
Fixpoint toLowerCase (s : string) : string :=
  match s with
  | EmptyString => EmptyString
  | String c s' => String (lowerChar c) (toLowerCase s')
  end.

(** [s.includes(w)]: [w] occurs in [s] as a substring. *)
Fixpoint includes (s w : string) : bool :=
  String.prefix w s ||
  match s with
  | EmptyString => false
  | String _ s' => includes s' w
  end.

(** A string in a boolean context. *)
Definition truthyString (s : string) : bool :=
  match s with EmptyString => false | _ => true end.

(** ** Numbers *)

(** The double of an integer (exact below [2^53]). *)
Definition ofZ (z : Z) : float :=
  if z <? 0 then PrimFloat.opp (PrimFloat.of_uint63 (Uint63.of_Z (- z)))
  else PrimFloat.of_uint63 (Uint63.of_Z z).

Definition ofNat (n : nat) : float := ofZ (Z.of_nat n).

(** The exact rational value of a finite double ([0] for the others). *)
Definition F2Q (x : float) : Q :=
  match Prim2SF x with
  | S754_finite s m e =>
      let v := if s then Zneg m else Zpos m in
      if 0 <=? e then inject_Z (v * 2 ^ e) else Qmake v (Z.to_pos (2 ^ (- e)))
  | _ => 0%Q
  end.


(** [Math.round]: the nearest integer, a tie going up. *)
Definition Math_round (x : float) : float :=
  match Prim2SF x with
  | S754_finite s m e =>
      if 0 <=? e then x
      else
        let d := 2 ^ (- e) in
        let v := if s then Zneg m else Zpos m in
        let n := (2 * v + d) / (2 * d) in
        if n =? 0 then (if s then PrimFloat.neg_zero else PrimFloat.zero)
        else ofZ n
  | _ => x
  end.

(** [Math.min] of two numbers. *)
Definition Math_min (a b : float) : float :=
  if PrimFloat.is_nan a || PrimFloat.is_nan b then PrimFloat.nan
  else if PrimFloat.ltb a b then a
  else if PrimFloat.ltb b a then b
  else if PrimFloat.is_zero a && PrimFloat.get_sign a then a
  else b.

(** [Math.round(p / q)] for integers [p] and [q > 0]: the quotient rounded
    to the nearest integer, a tie going up. *)
Definition roundDiv (p q : Z) : Z := (2 * p + q) / (2 * q).

(** The double written [n/100] in decimal, for an integer [n]: the quotient
    of two exact doubles is the double nearest to the rational. *)
Definition hundredths (n : Z) : float := PrimFloat.div (ofZ n) 100%float.

(** ** Values decoded from JSON *)

Inductive jsval :=
| JUndefined
| JNull
| JBool (b : bool)
| JNum (x : float)
| JStr (s : string)
| JArr (elems : list jsval)
| JObj (props : list (string * jsval)).

(** ToBoolean. *)
Definition truthy (v : jsval) : bool :=
  match v with
  | JUndefined | JNull => false
  | JBool b => b
  | JNum x => match Prim2SF x with S754_zero _ | S754_nan => false | _ => true end
  | JStr s => truthyString s
  | JArr _ | JObj _ => true
  end.

(** ** Exceptions *)

(** What axios rejects with: [error.code], [error.response] (the truthy
    [data.error] of the body if there is one, and [statusText]) and
    [error.message]. *)
Record AxiosError := {
  code : option string;
  response : option (option string * string);
  message : string
}.

Inductive exn :=
| TypeError                  (* raised by the runtime on an ill-typed value *)
| AxiosFailure (e : AxiosError)
| Error (msg : string).      (* [new Error(msg)] *)

Inductive completion (A : Type) :=
| Returns (a : A)
| Throws (e : exn).

Arguments Returns {A} a.
Arguments Throws {A} e.

Definition bind {A B} (c : completion A) (k : A -> completion B) : completion B :=
  match c with
  | Returns a => k a
  | Throws e => Throws e
  end.

Notation "x <- c ;; k" := (bind c (fun x => k))
  (at level 61, c at next level, right associativity).

(** [xs.map(f)] with a callback that may throw: the first exception ends
    the traversal. *)
Fixpoint mapM {A B} (f : A -> completion B) (xs : list A) : completion (list B) :=
  match xs with
  | [] => Returns []
  | x :: xs' => y <- f x ;; ys <- mapM f xs' ;; Returns (y :: ys)
  end.

(** ** Property access *)

Definition lookup (k : string) (props : list (string * jsval)) : jsval :=
  match find (fun p => String.eqb (fst p) k) props with
  | Some p => snd p
  | None => JUndefined
  end.

(** [v.k] for a property name [k] that is neither an index nor a built-in
    of strings and arrays (the sources read [sentiment], [confidence],
    [probabilities], [predictions] and [status]). *)
Definition getProp (v : jsval) (k : string) : completion jsval :=
  match v with
  | JUndefined | JNull => Throws TypeError
  | JObj props => Returns (lookup k props)
  | _ => Returns JUndefined
  end.

Definition indexKey (i : nat) : string :=
  DecimalString.NilEmpty.string_of_uint (Nat.to_uint i).

Fixpoint indexed {A} (f : A -> jsval) (i : nat) (xs : list A) : list (string * jsval) :=
  match xs with
  | [] => []
  | x :: xs' => (indexKey i, f x) :: indexed f (S i) xs'
  end.

(** [Object.keys(v)] paired with [v[key]], for a truthy [v]. *)
Definition entries (v : jsval) : list (string * jsval) :=
  match v with
  | JObj props => props
  | JArr elems => indexed (fun e => e) 0 elems
  | JStr s => indexed (fun c => JStr (String c EmptyString)) 0 (list_ascii_of_string s)
  | _ => []
  end.

(** ** [toFixed(3)] and [parseFloat] *)

(** The strings [Number.prototype.toFixed] produces with three digits. *)
Inductive numeral :=
| Fixed3 (negative : bool) (n : Z)  (* the digits of [n/1000], after a "-" if [negative] *)
| Printed (x : float).              (* ToString(x): NaN, an infinity, or [|x| >= 1e21] *)

(** The magnitude of a finite non-zero double. *)
Definition magnitude (m : positive) (e : Z) : Q :=
  if 0 <=? e then inject_Z (Zpos m * 2 ^ e) else Qmake (Zpos m) (Z.to_pos (2 ^ (- e))).

(** The integer [n] for which [n/1000 - q] is closest to zero, the larger
    one of two. *)
Definition nearestThousandth (q : Q) : Z := Qfloor (q * inject_Z 1000 + (1 # 2)).

Definition toFixed3 (x : float) : numeral :=
  match Prim2SF x with
  | S754_zero _ => Fixed3 false 0
  | S754_finite s m e =>
      if Qle_bool (inject_Z (10 ^ 21)) (magnitude m e) then Printed x
      else Fixed3 s (nearestThousandth (magnitude m e))
  | _ => Printed x
  end.

(** The double nearest to the decimal [n/1000] (ties to even), signed. *)
Definition thousandths (negative : bool) (n : Z) : float :=
  match n with
  | Zpos p =>
      SF2Prim (SFdiv prec emax (S754_finite negative p 0) (S754_finite false 1000 0))
  | _ => if negative then PrimFloat.neg_zero else PrimFloat.zero
  end.

Definition parseFloat (t : numeral) : float :=
  match t with
  | Fixed3 negative n => thousandths negative n
  | Printed x => x
  end.

(** [parseFloat(v.toFixed(3))]: only a number has the method. *)
Definition roundTo3 (v : jsval) : completion float :=
  match v with
  | JNum x => Returns (parseFloat (toFixed3 x))
  | _ => Throws TypeError
  end.

End JS.

(* ================================================================== *)
(** * The degraded-mode fallback scorer ([analyzeSentimentSimple]) *)
(* ================================================================== *)

Module Fallback.
Import JS.

Inductive Sentiment := Positive | Negative | Neutral.

Record Probabilities := {
  pPositive : float;
  pNegative : float;
  pNeutral : float
}.

Record Scored := {
  label : Sentiment;
  confidence : float;
  probabilities : Probabilities
}.

Definition positiveWords : list string :=
  [ "love"; "great"; "awesome"; "amazing"; "excellent"; "fantastic"; "wonderful";
    "good"; "best"; "perfect"; "happy"; "excited"; "brilliant"; "outstanding";
    "superb"; "magnificent"; "incredible"; "marvelous"; "terrific"; "fabulous" ].

Definition negativeWords : list string :=
  [ "hate"; "terrible"; "awful"; "horrible"; "bad"; "worst"; "disgusting";
    "disappointing"; "sad"; "angry"; "frustrated"; "annoying"; "useless";
    "pathetic"; "ridiculous"; "stupid"; "boring"; "dreadful"; "appalling" ].

(** [words.forEach(word => { if (lowerText.includes(word)) score++ })],
    from [score = 0]. *)
Definition countWords (words : list string) (lowerText : string) : nat :=
  fold_left (fun score word => if includes lowerText word then S score else score)
            words 0%nat.

Local Open Scope float_scope.

(** "Determine sentiment": the label and the confidence before rounding. *)
Definition determineSentiment (positiveScore negativeScore : nat) : Sentiment * float :=
  if (negativeScore <? positiveScore)%nat then
    (Positive, Math_min (0.6 + ofNat positiveScore * 0.1) 0.95)
  else if (positiveScore <? negativeScore)%nat then
    (Negative, Math_min (0.6 + ofNat negativeScore * 0.1) 0.95)
  else
    (Neutral, 0.7).

(** "Create probabilities": the three values before rounding. *)
Definition createProbabilities (sentiment : Sentiment) (confidence : float) : Probabilities :=
  match sentiment with
  | Positive =>
      {| pPositive := confidence;
         pNegative := (1 - confidence) * 0.3;
         pNeutral := (1 - confidence) * 0.7 |}
  | Negative =>
      {| pNegative := confidence;
         pPositive := (1 - confidence) * 0.3;
         pNeutral := (1 - confidence) * 0.7 |}
  | Neutral =>
      {| pNeutral := confidence;
         pPositive := (1 - confidence) * 0.5;
         pNegative := (1 - confidence) * 0.5 |}
  end.

(** [Math.round(x * 100) / 100]. *)
Definition round2 (x : float) : float := Math_round (x * 100) / 100.

(** The value [analyzeSentimentSimple] returns from its two scores. *)
Definition scored (positiveScore negativeScore : nat) : Scored :=
  let '(sentiment, confidence) := determineSentiment positiveScore negativeScore in
  let probabilities := createProbabilities sentiment confidence in
  {| label := sentiment;
     confidence := round2 confidence;
     probabilities :=
       {| pPositive := round2 (pPositive probabilities);
          pNegative := round2 (pNegative probabilities);
          pNeutral := round2 (pNeutral probabilities) |} |}.

Definition positiveScoreOf (text : string) : nat :=
  countWords positiveWords (toLowerCase text).

Definition negativeScoreOf (text : string) : nat :=
  countWords negativeWords (toLowerCase text).

Definition analyzeSentimentSimple (text : string) : Scored :=
  scored (positiveScoreOf text) (negativeScoreOf text).

(** The probabilities of [analyzeSentimentSimple] before the final rounding
    (the local [probabilities] of the source), and its unrounded confidence. *)
Definition unroundedConfidence (text : string) : float :=
  snd (determineSentiment (positiveScoreOf text) (negativeScoreOf text)).

Definition unroundedProbabilities (text : string) : Probabilities :=
  let '(sentiment, confidence) :=
    determineSentiment (positiveScoreOf text) (negativeScoreOf text) in
  createProbabilities sentiment confidence.

(** The confidence of a winner with count [k], before rounding. *)
Definition winnerConfidence (k : nat) : float :=
  Math_min (0.6 + ofNat k * 0.1)%float 0.95%float.

(** A probability: a double in [[0, 1]]. *)
Definition inUnit (x : float) : bool := PrimFloat.leb 0%float x && PrimFloat.leb x 1%float.

(** The outcome of [analyzeSentimentSimple] in terms of its two scores. *)
Inductive Outcome (text : string) : Prop :=
| PositiveWins :
    (negativeScoreOf text < positiveScoreOf text)%nat ->
    determineSentiment (positiveScoreOf text) (negativeScoreOf text)
    = (Positive, winnerConfidence (positiveScoreOf text)) ->
    Outcome text
| NegativeWins :
    (positiveScoreOf text < negativeScoreOf text)%nat ->
    determineSentiment (positiveScoreOf text) (negativeScoreOf text)
    = (Negative, winnerConfidence (negativeScoreOf text)) ->
    Outcome text
| Tie :
    positiveScoreOf text = negativeScoreOf text ->
    determineSentiment (positiveScoreOf text) (negativeScoreOf text)
    = (Neutral, 0.7%float) ->
    Outcome text.

End Fallback.

(* ================================================================== *)
(** * The gateway service ([SentimentService]) *)
(* ================================================================== *)

Module SentimentService.
Import JS.

(** ** State *)

(** [this.stats]; [lastRequestTime] holds the instant its ISO string denotes. *)
Record ServiceStats := {
  totalRequests : Z;
  successfulRequests : Z;
  failedRequests : Z;
  averageResponseTime : Z;
  lastRequestTime : option Z
}.

(** A request handed to axios. *)
Record UpstreamCall := {
  path : string;
  texts : list string;
  include_probabilities : bool;
  model : string;
  timeout : Z
}.

(** The singleton service: its statistics and, as a ghost field, the
    requests it has dispatched to the inference endpoint, latest first. *)
Record Service := {
  stats : ServiceStats;
  dispatched : list UpstreamCall
}.

(** The constructor. *)
Definition initialStats : ServiceStats :=
  {| totalRequests := 0; successfulRequests := 0; failedRequests := 0;
     averageResponseTime := 0; lastRequestTime := None |}.

Definition initialService : Service :=
  {| stats := initialStats; dispatched := [] |}.

(** [config.ML_SERVICE_TIMEOUT], by default. *)
Definition ML_SERVICE_TIMEOUT : Z := 30000.

(** ** What the outside world contributes to one call *)

Inductive Reply :=
| Resolved (data : jsval)        (* a 2xx answer; [data] is [response.data] *)
| Rejected (e : AxiosError).

(** [clock k] is the [k]-th reading of the wall clock during the call
    ([Date.now()] and [new Date()], in program order); [reply] is the outcome
    of the awaited request. *)
Record Exchange := {
  clock : nat -> Z;
  reply : Reply
}.

Record Options := {
  includeConfidence : option bool;
  optModel : option string
}.

Definition noOptions : Options := {| includeConfidence := None; optModel := None |}.

(** ** Response shaping *)

Inductive Glyph := SmilingFace | DisappointedFace | NeutralFace | ThinkingFace.

Record ApiResult := {
  sentiment : jsval;
  confidence : float;
  processingTime : float;      (* the number printed before the suffix "ms" *)
  probabilities : option (list (string * float));
  text : option string;
  emoji : Glyph
}.

(** [emojiMap[sentiment] || fallback], for the own keys of [emojiMap]. *)
Definition getSentimentEmoji (sentiment : jsval) : Glyph :=
  match sentiment with
  | JStr s =>
      if String.eqb s "Positive" then SmilingFace
      else if String.eqb s "Negative" then DisappointedFace
      else if String.eqb s "Neutral" then NeutralFace
      else ThinkingFace
  | _ => ThinkingFace
  end.

(** The [forEach] over [Object.keys(mlResponse.probabilities)]. *)
Definition roundEntry (kv : string * jsval) : completion (string * float) :=
  x <- roundTo3 (snd kv) ;; Returns (fst kv, x).

Definition transformMLResponse (mlResponse : jsval) (processingTime : float)
    (originalText : option string) : completion ApiResult :=
  sentiment <- getProp mlResponse "sentiment" ;;
  rawConfidence <- getProp mlResponse "confidence" ;;
  confidence <- roundTo3 (if truthy rawConfidence then rawConfidence else JNum 0%float) ;;
  rawProbabilities <- getProp mlResponse "probabilities" ;;
  probabilities <-
    (if truthy rawProbabilities
     then ps <- mapM roundEntry (entries rawProbabilities) ;; Returns (Some ps)
     else Returns None) ;;
  let text :=
    match originalText with
    | Some t => if truthyString t then Some t else None
    | None => None
    end in
  Returns {| sentiment := sentiment;
             confidence := confidence;
             processingTime := processingTime;
             probabilities := probabilities;
             text := text;
             emoji := getSentimentEmoji sentiment |}.

(** ** Statistics *)

(** [updateStats(responseTime, success)]; [now] is the clock reading of
    [new Date()].  Both callers have incremented [totalRequests] before. *)
Definition updateStats (responseTime : Z) (success : bool) (now : Z)
    (st : ServiceStats) : ServiceStats :=
  let successful := if success then successfulRequests st + 1 else successfulRequests st in
  let failed := if success then failedRequests st else failedRequests st + 1 in
  {| totalRequests := totalRequests st;
     successfulRequests := successful;
     failedRequests := failed;
     averageResponseTime :=
       roundDiv (averageResponseTime st * (totalRequests st - 1) + responseTime)
                (totalRequests st);
     lastRequestTime := Some now |}.

(** The same average computed as the source writes it, on doubles. *)
Definition averageInDoubles (average total responseTime : float) : float :=
  Math_round (PrimFloat.div
                (PrimFloat.add (PrimFloat.mul average (PrimFloat.sub total 1%float))
                               responseTime)
                total).

Definition incrementTotal (st : ServiceStats) : ServiceStats :=
  {| totalRequests := totalRequests st + 1;
     successfulRequests := successfulRequests st;
     failedRequests := failedRequests st;
     averageResponseTime := averageResponseTime st;
     lastRequestTime := lastRequestTime st |}.

Definition withStats (sv : Service) (st : ServiceStats) : Service :=
  {| stats := st; dispatched := dispatched sv |}.

Definition dispatch (c : UpstreamCall) (sv : Service) : Service :=
  {| stats := stats sv; dispatched := c :: dispatched sv |}.

(** ** Error translation *)

Definition upstreamMessage (r : option string * string) : string :=
  "ML service error: " ++ match fst r with Some e => e | None => snd r end.

Definition errorCode (error : exn) : option string :=
  match error with AxiosFailure e => code e | _ => None end.

Definition errorResponse (error : exn) : option (option string * string) :=
  match error with AxiosFailure e => response e | _ => None end.

Definition codeIs (c : string) (error : exn) : bool :=
  match errorCode error with Some c' => String.eqb c' c | None => false end.

Definition translate (fallback : string) (error : exn) : exn :=
  if codeIs "ECONNREFUSED" error then
    Error "ML service is not available. Please ensure the Python service is running."
  else if codeIs "ETIMEDOUT" error then
    Error "ML service request timed out. Please try again."
  else match errorResponse error with
       | Some r => Error (upstreamMessage r)
       | None => Error fallback
       end.

Definition handleMLServiceError : exn -> exn :=
  translate "Failed to communicate with ML service. Please try again.".

(** ** [analyzeSentiment] *)

(** The [catch] block of [analyzeSentiment], entered at clock reading [k]. *)
Definition analyzeCatch (ex : Exchange) (k : nat) (error : exn) (sv : Service)
    : completion ApiResult * Service :=
  let processingTime := clock ex k - clock ex 0 in
  let sv' := withStats sv (updateStats processingTime false (clock ex (S k)) (stats sv)) in
  (Throws (translate "Failed to analyze sentiment. Please try again." error), sv').

Definition analyzeSentiment (text : string) (options : Options) (ex : Exchange)
    (sv : Service) : completion ApiResult * Service :=
  let startTime := clock ex 0 in
  let sv1 := withStats sv (incrementTotal (stats sv)) in
  let sv2 :=
    dispatch {| path := "/predict";
                texts := [text];
                include_probabilities :=
                  match includeConfidence options with Some false => false | _ => true end;
                model :=
                  match optModel options with
                  | Some m => if truthyString m then m else "random_forest"
                  | None => "random_forest"
                  end;
                timeout := ML_SERVICE_TIMEOUT |} sv1 in
  match reply ex with
  | Resolved data =>
      let processingTime := clock ex 1 - startTime in
      let sv3 := withStats sv2 (updateStats processingTime true (clock ex 2) (stats sv2)) in
      match transformMLResponse data (ofZ processingTime) None with
      | Returns result => (Returns result, sv3)
      | Throws error => analyzeCatch ex 3 error sv3
      end
  | Rejected e => analyzeCatch ex 1 (AxiosFailure e) sv2
  end.

(** ** [analyzeBatchSentiment] *)

Definition batchCatch (ex : Exchange) (k : nat) (error : exn) (sv : Service)
    : completion (list ApiResult) * Service :=
  let processingTime := clock ex k - clock ex 0 in
  let sv' := withStats sv (updateStats processingTime false (clock ex (S k)) (stats sv)) in
  (Throws (handleMLServiceError error), sv').

(** The callback of [predictions.map], with the index resolved to
    [texts[index]]. *)
Definition transformPrediction (perItem : float) (entry : jsval * option string)
    : completion ApiResult :=
  let prediction := fst entry in
  sentiment <- getProp prediction "sentiment" ;;
  confidence <- getProp prediction "confidence" ;;
  probabilities <- getProp prediction "probabilities" ;;
  transformMLResponse
    (JObj [("sentiment", sentiment); ("confidence", confidence);
           ("probabilities", probabilities)])
    perItem (snd entry).

(** Each element of [predictions] with [texts[index]] at its index. *)
Fixpoint withTexts (predictions : list jsval) (index : nat) (batch : list string)
    : list (jsval * option string) :=
  match predictions with
  | [] => []
  | p :: ps => (p, nth_error batch index) :: withTexts ps (S index) batch
  end.

Definition transformPredictions (data : jsval) (processingTime : Z)
    (batch : list string) : completion (list ApiResult) :=
  predictions <- getProp data "predictions" ;;
  match predictions with
  | JArr elems =>
      mapM (transformPrediction
              (PrimFloat.div (ofZ processingTime) (ofNat (List.length batch))))
           (withTexts elems 0 batch)
  | _ => Throws TypeError
  end.

Definition analyzeBatchSentiment (batch : list string) (options : Options)
    (ex : Exchange) (sv : Service) : completion (list ApiResult) * Service :=
  let startTime := clock ex 0 in
  let sv1 := withStats sv (incrementTotal (stats sv)) in
  let sv2 :=
    dispatch {| path := "/predict/batch";
                texts := batch;
                include_probabilities :=
                  match includeConfidence options with Some false => false | _ => true end;
                model :=
                  match optModel options with
                  | Some m => if truthyString m then m else "random_forest"
                  | None => "random_forest"
                  end;
                timeout := ML_SERVICE_TIMEOUT * 2 |} sv1 in
  match reply ex with
  | Resolved data =>
      let processingTime := clock ex 1 - startTime in
      let sv3 := withStats sv2 (updateStats processingTime true (clock ex 2) (stats sv2)) in
      match transformPredictions data processingTime batch with
      | Returns results => (Returns results, sv3)
      | Throws error => batchCatch ex 3 error sv3
      end
  | Rejected e => batchCatch ex 1 (AxiosFailure e) sv2
  end.

(** ** [checkMLServiceHealth] *)

Inductive Probe :=
| ProbeAnswered (data : jsval)     (* a 2xx answer of the health endpoint *)
| ProbeFailed (msg : string).      (* refused, timed out after 5 s, or non-2xx *)

(** Assignment of one property: an existing key keeps its place. *)
Fixpoint assign (props : list (string * jsval)) (k : string) (v : jsval)
    : list (string * jsval) :=
  match props with
  | [] => [(k, v)]
  | (k', v') :: rest =>
      if String.eqb k' k then (k, v) :: rest else (k', v') :: assign rest k v
  end.

(** [{ ...props, ...v }]. *)
Definition spread (props : list (string * jsval)) (v : jsval) : list (string * jsval) :=
  fold_left (fun acc kv => assign acc (fst kv) (snd kv)) (entries v) props.

(** The object [checkMLServiceHealth(detailed)] resolves to; [responseTime]
    is the measured [Date.now() - startTime]. *)
Definition checkMLServiceHealth (detailed : bool) (responseTime : Z) (probe : Probe)
    : list (string * jsval) :=
  match probe with
  | ProbeAnswered data =>
      let base := [("status", JStr "healthy"); ("responseTime", JNum (ofZ responseTime))] in
      if detailed then spread base data else base
  | ProbeFailed msg =>
      [("status", JStr "unhealthy"); ("responseTime", JNum (ofZ responseTime));
       ("error", JStr msg)]
  end.

(** ** Sequences of calls *)

(** One completed call of the service, with what the world contributed. *)
Inductive Call :=
| Analyze (text : string) (options : Options) (ex : Exchange)
| AnalyzeBatch (batch : list string) (options : Options) (ex : Exchange).

Definition step (sv : Service) (c : Call) : Service :=
  match c with
  | Analyze text options ex => snd (analyzeSentiment text options ex sv)
  | AnalyzeBatch batch options ex => snd (analyzeBatchSentiment batch options ex sv)
  end.

Definition run (calls : list Call) (sv : Service) : Service :=
  fold_left step calls sv.

Definition exchangeOf (c : Call) : Exchange :=
  match c with
  | Analyze _ _ ex | AnalyzeBatch _ _ ex => ex
  end.

(** The response-time sample of a call whose statistics are updated once:
    the second clock reading minus the first. *)
Definition sample (c : Call) : Z := clock (exchangeOf c) 1 - clock (exchangeOf c) 0.

(** The response shaping of the call does not throw: the request was
    rejected, or the answer could be normalized. *)
Definition shapes (c : Call) : bool :=
  match reply (exchangeOf c) with
  | Rejected _ => true
  | Resolved data =>
      match c with
      | Analyze _ _ ex =>
          match transformMLResponse data (ofZ (sample c)) None with
          | Returns _ => true
          | Throws _ => false
          end
      | AnalyzeBatch batch _ ex =>
          match transformPredictions data (sample c) batch with
          | Returns _ => true
          | Throws _ => false
          end
      end
  end.

(** An exchange answered after [ms] milliseconds. *)
Definition answeredAfter (ms : Z) (r : Reply) : Exchange :=
  {| clock := fun k => match k with O => 0 | _ => ms end; reply := r |}.

(** The invariant of the counters. *)
Definition balanced (st : ServiceStats) : Prop :=
  successfulRequests st + failedRequests st = totalRequests st.

End SentimentService.

(* ================================================================== *)
(** * The HTTP routes *)
(* ================================================================== *)

Module Routes.
Import JS SentimentService.

(** ** Responses *)

Inductive Body :=
| ValidationFailed (details : list string)   (* [{success: false, error: 'Validation failed', details}] *)
| Analysis (data : ApiResult)                (* [{success: true, data, ...}] *)
| BatchAnalysis (data : list ApiResult) (count : nat)
| Failure (title : string) (msg : string).   (* the body of the error middleware *)

Record HttpResponse := {
  status : Z;
  body : Body
}.

(** ** The error middleware *)

(** [errorHandler(err, ...)] on what the routes pass to [next]: an [Error]
    has the name "Error" and neither [code] nor [statusCode]. *)
Definition errorHandler (err : exn) : HttpResponse :=
  match err with
  | Error msg =>
      if includes msg "ML service"
      then {| status := 503; body := Failure "ML Service Error" msg |}
      else {| status := 500;
              body := Failure "Internal Server Error"
                              "Something went wrong. Please try again." |}
  | AxiosFailure e =>
      if codeIs "ECONNREFUSED" err then
        {| status := 503;
           body := Failure "Service Unavailable"
                     "External service is not available. Please try again later." |}
      else if codeIs "ETIMEDOUT" err then
        {| status := 408;
           body := Failure "Request Timeout" "Request timed out. Please try again." |}
      else if includes (message e) "ML service"
      then {| status := 503; body := Failure "ML Service Error" (message e) |}
      else {| status := 500;
              body := Failure "Internal Server Error"
                              "Something went wrong. Please try again." |}
  | TypeError =>
      {| status := 500;
         body := Failure "Internal Server Error"
                         "Something went wrong. Please try again." |}
  end.

(** ** Validation (express-validator) *)

(** The JSON body of [POST /analyze]; an absent [text] is [None], and the
    option fields have the JSON types of the public contract. *)
Record AnalyzeBody := {
  bodyText : option string;
  bodyOptions : option Options
}.

Definition MAX_TEXT_LENGTH : nat := 5000.

Definition allowedModels : list string :=
  ["random_forest"; "logistic_regression"; "naive_bayes"].

Definition isIn (s : string) (xs : list string) : bool :=
  existsb (String.eqb s) xs.

(** A validator of a chain records its message when it fails; every
    validator of the chain runs (there is no [bail]). *)
Definition check (ok : bool) (msg : string) : list string :=
  if ok then [] else [msg].

(** The chain on [text]: the [trim] sanitizer replaces the value before the
    validators after it run, so they all see the trimmed string. *)
Definition sanitizeText (raw : option string) : string :=
  trim (match raw with Some s => s | None => "" end).

Definition textErrors (value : string) : list string :=
  (check (negb (String.length value =? 0)%nat) "Text is required"
   ++ check ((1 <=? String.length value)%nat && (String.length value <=? MAX_TEXT_LENGTH)%nat)
            "Text must be between 1 and 5000 characters"
   ++ check true "Invalid characters in text")%list.

Definition optionErrors (options : option Options) : list string :=
  match options with
  | None => []
  | Some o =>
      (check true "includeConfidence must be a boolean"
       ++ match optModel o with
          | None => []
          | Some m => check (isIn m allowedModels) "Invalid model type"
          end)%list
  end.

(** [validateTextInput]: the sanitized text and the errors collected. *)
Definition validateTextInput (b : AnalyzeBody) : string * list string :=
  let value := sanitizeText (bodyText b) in
  (value, (textErrors value ++ optionErrors (bodyOptions b))%list).

(** ** [POST /api/sentiment/analyze] *)

Definition analyzeOptions (options : option Options) : Options :=
  let o := match options with Some o => o | None => noOptions end in
  {| includeConfidence :=
       Some (match includeConfidence o with Some false => false | _ => true end);
     optModel :=
       Some (match optModel o with
             | Some m => if truthyString m then m else "random_forest"
             | None => "random_forest"
             end) |}.

Definition postAnalyze (b : AnalyzeBody) (ex : Exchange) (sv : Service)
    : HttpResponse * Service :=
  let '(text, errors) := validateTextInput b in
  match errors with
  | _ :: _ => ({| status := 400; body := ValidationFailed errors |}, sv)
  | [] =>
      match analyzeSentiment text (analyzeOptions (bodyOptions b)) ex sv with
      | (Returns result, sv') => ({| status := 200; body := Analysis result |}, sv')
      | (Throws error, sv') => (errorHandler error, sv')
      end
  end.

(** ** [POST /api/sentiment/batch] *)

Record BatchBody := {
  bodyTexts : list string;
  batchOptions : option Options
}.

Definition MAX_BATCH_SIZE : nat := 100.

Definition itemErrors (value : string) : list string :=
  (check (negb (String.length value =? 0)%nat) "Each text item is required"
   ++ check ((1 <=? String.length value)%nat && (String.length value <=? MAX_TEXT_LENGTH)%nat)
            "Each text must be between 1 and 5000 characters")%list.

Definition validateBatch (b : BatchBody) : list string * list string :=
  let values := map trim (bodyTexts b) in
  (values,
   (check ((1 <=? List.length (bodyTexts b))%nat
           && (List.length (bodyTexts b) <=? MAX_BATCH_SIZE)%nat)
          "texts must be an array with 1-100 items"
    ++ flat_map itemErrors values)%list).

Definition postBatch (b : BatchBody) (ex : Exchange) (sv : Service)
    : HttpResponse * Service :=
  let '(values, errors) := validateBatch b in
  match errors with
  | _ :: _ => ({| status := 400; body := ValidationFailed errors |}, sv)
  | [] =>
      let options := match batchOptions b with Some o => o | None => noOptions end in
      match analyzeBatchSentiment values options ex sv with
      | (Returns results, sv') =>
          ({| status := 200; body := BatchAnalysis results (List.length results) |}, sv')
      | (Throws error, sv') => (errorHandler error, sv')
      end
  end.

(** ** [GET /health] and [GET /health/detailed] *)

Inductive Overall := healthy | degraded | unhealthy.

Record HealthData := {
  overall : Overall;
  api : string;
  mlService : jsval;     (* what the inference endpoint is reported as *)
  httpStatus : Z
}.

(** [status === "healthy"]. *)
Definition isHealthy (v : jsval) : bool :=
  match v with JStr s => String.eqb s "healthy" | _ => false end.

Definition getHealth (responseTime : Z) (probe : Probe) : HealthData :=
  let mlHealth := checkMLServiceHealth false responseTime probe in
  let api := "healthy" in
  let mlService := lookup "status" mlHealth in
  let serviceStatuses := [JStr api; mlService] in
  let allServicesHealthy := forallb isHealthy serviceStatuses in
  let status := if negb allServicesHealthy then degraded else healthy in
  {| overall := status; api := api; mlService := mlService;
     httpStatus := match status with healthy => 200 | _ => 503 end |}.

Definition getHealthDetailed (responseTime : Z) (probe : Probe) : HealthData :=
  let mlHealth := checkMLServiceHealth true responseTime probe in
  let mlService := lookup "status" mlHealth in
  let servicesHealthy := isHealthy mlService in
  let status := if negb servicesHealthy then degraded else healthy in
  {| overall := status; api := "healthy"; mlService := mlService;
     httpStatus := match status with healthy => 200 | _ => 503 end |}.

End Routes.

(* ================================================================== *)
(** * The other endpoints of the gateway *)
(* ================================================================== *)

Module Endpoints.
Import JS SentimentService Routes.



(** [GET /health/ready]: the status code and the [status] of the body. *)
Definition getReady (responseTime : Z) (probe : Probe) : Z * string :=
  let mlServiceReady := checkMLServiceHealth false responseTime probe in
  if isHealthy (lookup "status" mlServiceReady)
  then (200, "ready")
  else (503, "not ready").

(** [GET /health/live]. *)
Definition getLive : Z * string := (200, "alive").

End Endpoints.

(* ================================================================== *)
(** * The serverless analyze function *)
(* ================================================================== *)

Module Serverless.
Import JS Fallback.

Inductive Method := GET | POST | OPTIONS | OtherMethod.

(** [data] of a successful answer; [processingTime] is the constant
    '45ms'. *)
Record Payload := {
  sentiment : Sentiment;
  confidence : float;
  probabilities : Probabilities;
  processingTime : string;
  text : string
}.

Inductive Answer :=
| Ended (status : Z)                       (* [res.status(200).end()] *)
| Refused (status : Z) (error : string)    (* [{success: false, error}] or [{error}] *)
| Analyzed (data : Payload).               (* 200 [{success: true, data}] *)

(** [text.substring(0, n)]. *)
Definition firstChars (n : nat) (s : string) : string := String.substring 0 n s.

(** The handler; [body] is [req.body]. *)
Definition handler (method : Method) (body : jsval) : Answer :=
  match method with
  | OPTIONS => Ended 200
  | POST =>
      match getProp body "text" with
      | Throws _ =>
          Refused 500 "Internal server error occurred during sentiment analysis"
      | Returns (JStr text) =>
          if negb (truthyString text) || (String.length (trim text) =? 0)%nat
          then Refused 400 "Text is required and must be a non-empty string"
          else
            let sentiment := analyzeSentimentSimple text in
            Analyzed {| sentiment := label sentiment;
                        confidence := Fallback.confidence sentiment;
                        probabilities := Fallback.probabilities sentiment;
                        processingTime := "45ms";
                        text := firstChars 100 text |}
      | Returns _ => Refused 400 "Text is required and must be a non-empty string"
      end
  | _ => Refused 405 "Method not allowed"
  end.

End Serverless.

(* ================================================================== *)
(** * The client: validation, request building and display helpers *)
(* ================================================================== *)

Module Frontend.
Import JS SentimentService Routes.

(** [validateText(text)]: the errors; the text is valid when there are
    none. *)
Definition validateText (text : string) : list string :=
  ((if negb (truthyString text) || (String.length (trim text) =? 0)%nat
    then ["Text cannot be empty"] else [])
   ++ (if (5000 <? String.length text)%nat
       then ["Text cannot exceed 5000 characters"] else []))%list.

Definition isValid (errors : list string) : bool :=
  match errors with [] => true | _ => false end.

(** The request [handleAnalyze] sends for a text it has validated. *)
Definition analysisRequest (text : string) : AnalyzeBody :=
  {| bodyText := Some (trim text);
     bodyOptions := Some {| includeConfidence := Some true;
                            optModel := Some "random_forest" |} |}.

(** [getConfidenceLevel(confidence)]. *)
Inductive Level := High | Medium | Low.

Definition getConfidenceLevel (confidence : float) : Level :=
  if PrimFloat.leb 0.8%float confidence then High
  else if PrimFloat.leb 0.6%float confidence then Medium
  else Low.

(** [text.substring(0, n)] for an integer [n]: a negative end is 0. *)
Definition substringTo (text : string) (n : Z) : string :=
  String.substring 0 (Z.to_nat n) text.

(** [truncateText(text, maxLength)]. *)
Definition truncateText (text : string) (maxLength : Z) : string :=
  if Z.of_nat (String.length text) <=? maxLength then text
  else substringTo text (maxLength - 3) ++ "...".

(** [getRelativeTime(timestamp)]; [now] and [date] are the two [getTime()]
    values in milliseconds, and [Math.floor] of a quotient is the floor
    division of [Z]. *)
Inductive RelativeTime :=
| JustNow
| MinutesAgo (n : Z)
| HoursAgo (n : Z)
| DaysAgo (n : Z)
| OnDate.            (* [date.toLocaleDateString()] *)

Definition getRelativeTime (now date : Z) : RelativeTime :=
  let diffMs := now - date in
  let diffSeconds := diffMs / 1000 in
  let diffMinutes := diffSeconds / 60 in
  let diffHours := diffMinutes / 60 in
  let diffDays := diffHours / 24 in
  if diffSeconds <? 60 then JustNow
  else if diffMinutes <? 60 then MinutesAgo diffMinutes
  else if diffHours <? 24 then HoursAgo diffHours
  else if diffDays <? 7 then DaysAgo diffDays
  else OnDate.

(** ** [retryWithBackoff] *)

Section Retry.

Variables T E : Type.

(** What the [i]-th call of [fn] does: resolve or reject. *)
Variable fn : nat -> T + E.

Variable maxRetries : nat.
Variable baseDelay : Z.

Inductive Settled :=
| Resolves (value : T)
| Rejects (lastError : option E).   (* [None] is the unassigned [lastError] *)

(** The loop from iteration [i], with [remaining] iterations before
    [i < maxRetries] fails; the list holds the delays slept, in order. *)
Fixpoint retryLoop (remaining i : nat) (lastError : option E) : Settled * list Z :=
  match remaining with
  | O => (Rejects lastError, [])
  | S remaining' =>
      match fn i with
      | inl value => (Resolves value, [])
      | inr error =>
          if (i =? maxRetries - 1)%nat then (Rejects (Some error), [])
          else
            let delay := baseDelay * 2 ^ Z.of_nat i in
            let '(settled, delays) := retryLoop remaining' (S i) (Some error) in
            (settled, delay :: delays)
      end
  end.

Definition retryWithBackoff : Settled * list Z := retryLoop maxRetries 0 None.

End Retry.

End Frontend.

(* ================================================================== *)
(** * Notions the specification uses *)
(* ================================================================== *)

Module Spec.
Import JS.

(** The number of occurrences of [w] in [s], counted at every position. *)
Fixpoint occurrences (s w : string) : nat :=
  ((if String.prefix w s then 1 else 0)
   + match s with
     | EmptyString => 0
     | String _ s' => occurrences s' w
     end)%nat.

(** The occurrences in [lowerText] of the words of a set, added up. *)
Definition occurrenceCount (words : list string) (lowerText : string) : nat :=
  list_sum (map (occurrences lowerText) words).

(** The words of a set that occur in [lowerText] at least once. *)
Definition presentWords (words : list string) (lowerText : string) : list string :=
  filter (includes lowerText) words.

(** A double within [eps] of a rational. *)
Definition closeTo (eps : Q) (x : float) (q : Q) : Prop :=
  (Qabs (F2Q x - q) <= eps)%Q.

(** The arithmetic mean of a non-empty list of samples. *)
Definition mean (samples : list Z) : Q :=
  Qdiv (inject_Z (fold_right Z.add 0 samples))
       (inject_Z (Z.of_nat (List.length samples))).

(** Rounding a rational to the nearest integer, a tie going up. *)
Definition roundHalfUp (q : Q) : Z := Qfloor (q + (1 # 2)).



(** A value that has the method [toFixed]. *)
Definition hasToFixed (v : jsval) : bool :=
  match v with JNum _ => true | _ => false end.

(** A [probabilities] field the response shaping accepts: absent or
    falsy, or with numbers only. *)
Definition numericOrAbsent (v : jsval) : bool :=
  negb (truthy v) || forallb (fun kv => hasToFixed (snd kv)) (entries v).

(** [v.k] where the access cannot throw. *)
Definition field (v : jsval) (k : string) : jsval :=
  match getProp v k with
  | Returns x => x
  | Throws _ => JUndefined
  end.

(** An answer, or a prediction of a batch answer, that the response shaping
    accepts: not [null], a [confidence] that is falsy or a number, and a
    [probabilities] field that is falsy or holds numbers only. *)
Definition shapable (v : jsval) : bool :=
  match getProp v "confidence" with
  | Returns c =>
      (negb (truthy c) || hasToFixed c) && numericOrAbsent (field v "probabilities")
  | Throws _ => false
  end.

(** A string of [n] copies of [c]. *)
Fixpoint replicate (n : nat) (c : ascii) : string :=
  match n with
  | O => EmptyString
  | S n' => String c (replicate n' c)
  end.

End Spec.

(* ================================================================== *)
(** * Concrete requests and answers *)
(* ================================================================== *)

Module Scenarios.
Import JS SentimentService.

(** A well-formed answer of the inference endpoint. *)
Definition positiveAnswer : Reply :=
  Resolved (JObj [("sentiment", JStr "Positive"); ("confidence", JNum 0.93456%float)]).

(** An answer whose [confidence] is a string, and a batch answer without
    [predictions]. *)
Definition stringConfidence : Reply :=
  Resolved (JObj [("sentiment", JStr "Positive"); ("confidence", JStr "0.93")]).

Definition noPredictions : Reply :=
  Resolved (JObj [("error", JStr "model not loaded")]).

(** Two calls, answered after 1 ms and after 2 ms. *)
Definition firstCall : Call := Analyze "first" noOptions (answeredAfter 1 positiveAnswer).
Definition secondCall : Call := Analyze "second" noOptions (answeredAfter 2 positiveAnswer).

(** An answer whose three probabilities are 0.5 each. *)
Definition unnormalizedAnswer : jsval :=
  JObj [("sentiment", JStr "Neutral"); ("confidence", JNum 0.93456%float);
        ("probabilities",
         JObj [("Positive", JNum 0.5%float); ("Negative", JNum 0.5%float);
               ("Neutral", JNum 0.5%float)])].



(** A batch of two texts and an answer with two predictions. *)
Definition twoTexts : list string := ["I love it"; "awful"].

Definition twoPredictions : list jsval :=
  [ JObj [("sentiment", JStr "Positive"); ("confidence", JNum 0.91%float)];
    JObj [("sentiment", JStr "Negative"); ("confidence", JNum 0.87%float)] ].

Definition batchExchange : Exchange :=
  answeredAfter 40 (Resolved (JObj [("predictions", JArr twoPredictions)])).

End Scenarios.

(* ================================================================== *)
(** * Properties of the fallback scorer *)
(* ================================================================== *)

Module FallbackFacts.
Import JS Fallback Spec.

Lemma below_cases (P : nat -> Prop) (b : nat) :
  Forall P (seq 0 b) -> forall k, (k < b)%nat -> P k.
Proof.
  intros H k Hk. rewrite Forall_forall in H. apply H, in_seq. lia.
Qed.

Lemma fold_count_filter (t : string) (ws : list string) (acc : nat) :
  fold_left (fun score word => if includes t word then S score else score) ws acc
  = (acc + List.length (filter (includes t) ws))%nat.
Proof.
  revert acc. induction ws as [|w ws IH]; intro acc; simpl.
  - lia.
  - rewrite IH. destruct (includes t w); simpl; lia.
Qed.

Lemma countWords_present (ws : list string) (t : string) :
  countWords ws t = List.length (presentWords ws t).
Proof. unfold countWords, presentWords. now rewrite fold_count_filter. Qed.

Lemma countWords_le (ws : list string) (t : string) :
  (countWords ws t <= List.length ws)%nat.
Proof. rewrite countWords_present. apply filter_length_le. Qed.

Lemma positiveScore_bound (text : string) : (positiveScoreOf text < 21)%nat.
Proof.
  unfold positiveScoreOf.
  pose proof (countWords_le positiveWords (toLowerCase text)) as H.
  change (List.length positiveWords) with 20%nat in H. lia.
Qed.

Lemma negativeScore_bound (text : string) : (negativeScoreOf text < 21)%nat.
Proof.
  unfold negativeScoreOf.
  pose proof (countWords_le negativeWords (toLowerCase text)) as H.
  change (List.length negativeWords) with 19%nat in H. lia.
Qed.

Ltac by_table :=
  apply below_cases with (b := 21%nat); cbv [seq];
  repeat (constructor; [ vm_compute; repeat split; reflexivity | ]);
  constructor.

Lemma winner_confidence_table (k : nat) :
  (k < 21)%nat ->
  round2 (winnerConfidence k) = hundredths (Z.min (60 + 10 * Z.of_nat k) 95)
  /\ round2 (winnerConfidence k) = winnerConfidence k.
Proof. revert k. by_table. Qed.

(** What a winner with count [k] yields: [c] is its confidence before
    rounding and [C] the same in hundredths. *)
Lemma winner_table (k : nat) :
  (k < 21)%nat ->
  let c := winnerConfidence k in
  let C := Z.min (60 + 10 * Z.of_nat k) 95 in
  round2 ((1 - c) * 0.3)%float = hundredths (roundDiv (3 * (100 - C)) 10)
  /\ round2 ((1 - c) * 0.7)%float = hundredths (roundDiv (7 * (100 - C)) 10)
  /\ PrimFloat.leb 0.6%float (round2 c) = true
  /\ PrimFloat.leb (round2 c) 0.95%float = true
  /\ inUnit c = true
  /\ inUnit ((1 - c) * 0.3)%float = true
  /\ inUnit ((1 - c) * 0.7)%float = true
  /\ (c + (1 - c) * 0.3 + (1 - c) * 0.7)%float = 1%float
  /\ ((1 - c) * 0.3 + c + (1 - c) * 0.7)%float = 1%float.
Proof. revert k. by_table. Qed.

Lemma neutral_table :
  let c := 0.7%float in
  round2 c = hundredths 70
  /\ round2 ((1 - c) * 0.5)%float = hundredths (roundDiv (5 * (100 - 70)) 10)
  /\ PrimFloat.leb 0.6%float (round2 c) = true
  /\ PrimFloat.leb (round2 c) 0.95%float = true
  /\ inUnit c = true
  /\ inUnit ((1 - c) * 0.5)%float = true
  /\ ((1 - c) * 0.5 + (1 - c) * 0.5 + c)%float = 1%float.
Proof. vm_compute. repeat split; reflexivity. Qed.

(** The three branches of "determine sentiment". *)
Lemma determine_positive (p n : nat) :
  (n < p)%nat -> determineSentiment p n = (Positive, winnerConfidence p).
Proof.
  intro H. unfold determineSentiment.
  destruct (Nat.ltb_spec n p); [reflexivity | lia].
Qed.

Lemma determine_negative (p n : nat) :
  (p < n)%nat -> determineSentiment p n = (Negative, winnerConfidence n).
Proof.
  intro H. unfold determineSentiment.
  destruct (Nat.ltb_spec n p); [lia |].
  destruct (Nat.ltb_spec p n); [reflexivity | lia].
Qed.

Lemma determine_neutral (p n : nat) :
  p = n -> determineSentiment p n = (Neutral, 0.7%float).
Proof.
  intros ->. unfold determineSentiment. now rewrite Nat.ltb_irrefl.
Qed.

Lemma outcome (text : string) : Outcome text.
Proof.
  destruct (lt_eq_lt_dec (positiveScoreOf text) (negativeScoreOf text)) as [[H | H] | H].
  - apply NegativeWins; [assumption | now apply determine_negative].
  - apply Tie; [assumption | now apply determine_neutral].
  - apply PositiveWins; [assumption | now apply determine_positive].
Qed.

Lemma analyze_scored (text : string) :
  analyzeSentimentSimple text = scored (positiveScoreOf text) (negativeScoreOf text).
Proof. reflexivity. Qed.

Lemma positiveScore_present (text : string) :
  positiveScoreOf text = List.length (presentWords positiveWords (toLowerCase text)).
Proof. apply countWords_present. Qed.

Lemma negativeScore_present (text : string) :
  negativeScoreOf text = List.length (presentWords negativeWords (toLowerCase text)).
Proof. apply countWords_present. Qed.

(** The label and the confidence in terms of the two scores. *)
Lemma scored_label_and_confidence (p n : nat) :
  (p < 21)%nat -> (n < 21)%nat ->
  ((n < p)%nat ->
     label (scored p n) = Positive
     /\ confidence (scored p n) = hundredths (Z.min (60 + 10 * Z.of_nat p) 95)
     /\ confidence (scored p n) = Math_min (0.6 + ofNat p * 0.1)%float 0.95%float)
  /\ ((p < n)%nat ->
     label (scored p n) = Negative
     /\ confidence (scored p n) = hundredths (Z.min (60 + 10 * Z.of_nat n) 95)
     /\ confidence (scored p n) = Math_min (0.6 + ofNat n * 0.1)%float 0.95%float)
  /\ (p = n -> label (scored p n) = Neutral /\ confidence (scored p n) = hundredths 70).
Proof.
  intros Hp Hn. unfold scored.
  split; [| split]; intro H.
  - rewrite (determine_positive H). cbn [label confidence].
    destruct (winner_confidence_table Hp) as [T1 T2].
    unfold winnerConfidence in T2 at 2. auto.
  - rewrite (determine_negative H). cbn [label confidence].
    destruct (winner_confidence_table Hn) as [T1 T2].
    unfold winnerConfidence in T2 at 2. auto.
  - rewrite (determine_neutral H). cbn [label confidence].
    split; [reflexivity | apply neutral_table].
Qed.

(** C7 (as stated, refuted). With occurrences counted as the specification
    words them, the text "good good bad" has two positive occurrences and
    one negative one, yet the scorer does not answer Positive: the class
    with more occurrences does not always win. *)
Lemma fallback_repeated_word_counts_once :
  ~ (forall text : string,
        (occurrenceCount negativeWords (toLowerCase text)
         < occurrenceCount positiveWords (toLowerCase text))%nat ->
        label (analyzeSentimentSimple text) = Positive).
Proof.
  intro H. specialize (H "good good bad").
  assert (Hc : (occurrenceCount negativeWords (toLowerCase "good good bad")
                < occurrenceCount positiveWords (toLowerCase "good good bad"))%nat)
    by (vm_compute; lia).
  apply H in Hc. vm_compute in Hc. discriminate Hc.
Qed.

(** C7 (amended). For every input text the scorer counts, for each of the
    two fixed word sets, the words of the set that occur at least once as a
    substring of the lower-cased input (a repeated word counts once).  The
    class with the higher count [k] wins with confidence
    [min(0.6 + 0.1 k, 0.95)], that is the double written
    [min(60 + 10 k, 95) / 100]; equal counts, zero included, give Neutral
    with confidence 0.7. *)
Theorem fallback_label_and_confidence (text : string) :
  let p := List.length (presentWords positiveWords (toLowerCase text)) in
  let n := List.length (presentWords negativeWords (toLowerCase text)) in
  let r := analyzeSentimentSimple text in
  ((n < p)%nat ->
     label r = Positive
     /\ confidence r = hundredths (Z.min (60 + 10 * Z.of_nat p) 95)
     /\ confidence r = Math_min (0.6 + ofNat p * 0.1)%float 0.95%float)
  /\ ((p < n)%nat ->
     label r = Negative
     /\ confidence r = hundredths (Z.min (60 + 10 * Z.of_nat n) 95)
     /\ confidence r = Math_min (0.6 + ofNat n * 0.1)%float 0.95%float)
  /\ (p = n -> label r = Neutral /\ confidence r = hundredths 70).
Proof.
  cbv zeta.
  rewrite analyze_scored, <- positiveScore_present, <- negativeScore_present.
  apply scored_label_and_confidence.
  - apply positiveScore_bound.
  - apply negativeScore_bound.
Qed.

(** C8 (as stated, refuted). Four positive words give the capped confidence
    0.95, and the returned result is Positive 0.95, Negative 0.02,
    Neutral 0.04: neither non-winning probability is within a thousandth of
    30% of the remaining mass [1 - 0.95], so the result is not split 30/70. *)
Lemma fallback_capped_confidence_breaks_split :
  let r := analyzeSentimentSimple "love great awesome amazing" in
  label r = Positive
  /\ confidence r = 0.95%float
  /\ pNegative (probabilities r) = 0.02%float
  /\ pNeutral (probabilities r) = 0.04%float
  /\ ~ closeTo (1 # 1000) (pNegative (probabilities r))
                ((3 # 10) * (1 - F2Q (confidence r)))
  /\ ~ closeTo (1 # 1000) (pNeutral (probabilities r))
                ((3 # 10) * (1 - F2Q (confidence r))).
Proof.
  cbv zeta. repeat split; try (vm_compute; reflexivity);
    unfold closeTo; intro H; vm_compute in H; apply H; reflexivity.
Qed.

(** C8 (amended). Before the final rounding the winning class has the
    confidence as its probability and the remaining mass [1 - confidence]
    is split 30/70 (the opposite polarity 30%, Neutral 70%) for a Positive
    or Negative winner and 50/50 for Neutral.  The returned probabilities
    are these values rounded to two decimals, a tie going up: with [C] the
    returned confidence in hundredths, the winner has [C/100] and the other
    two have [3 (100 - C) / 10] and [7 (100 - C) / 10] hundredths, rounded
    (resp. [5 (100 - C) / 10] each). *)
Theorem fallback_probability_split (text : string) :
  let r := analyzeSentimentSimple text in
  let u := unroundedProbabilities text in
  let c := unroundedConfidence text in
  match label r with
  | Positive =>
      pPositive u = c
      /\ pNegative u = ((1 - c) * 0.3)%float
      /\ pNeutral u = ((1 - c) * 0.7)%float
  | Negative =>
      pNegative u = c
      /\ pPositive u = ((1 - c) * 0.3)%float
      /\ pNeutral u = ((1 - c) * 0.7)%float
  | Neutral =>
      pNeutral u = c
      /\ pPositive u = ((1 - c) * 0.5)%float
      /\ pNegative u = ((1 - c) * 0.5)%float
  end
  /\ exists C : Z,
       70 <= C <= 95
       /\ confidence r = hundredths C
       /\ match label r with
          | Positive =>
              pPositive (probabilities r) = hundredths C
              /\ pNegative (probabilities r) = hundredths (roundDiv (3 * (100 - C)) 10)
              /\ pNeutral (probabilities r) = hundredths (roundDiv (7 * (100 - C)) 10)
          | Negative =>
              pNegative (probabilities r) = hundredths C
              /\ pPositive (probabilities r) = hundredths (roundDiv (3 * (100 - C)) 10)
              /\ pNeutral (probabilities r) = hundredths (roundDiv (7 * (100 - C)) 10)
          | Neutral =>
              pNeutral (probabilities r) = hundredths C
              /\ pPositive (probabilities r) = hundredths (roundDiv (5 * (100 - C)) 10)
              /\ pNegative (probabilities r) = hundredths (roundDiv (5 * (100 - C)) 10)
          end.
Proof.
  cbv zeta.
  pose proof (positiveScore_bound text) as Hp.
  pose proof (negativeScore_bound text) as Hn.
  unfold analyzeSentimentSimple, scored, unroundedProbabilities, unroundedConfidence.
  destruct (outcome text) as [Hlt E | Hlt E | Heq E]; rewrite E;
    cbn [label confidence probabilities createProbabilities
         pPositive pNegative pNeutral snd].
  - split; [repeat split |].
    destruct (winner_confidence_table Hp) as [T _].
    destruct (winner_table Hp) as (A & B & _).
    exists (Z.min (60 + 10 * Z.of_nat (positiveScoreOf text)) 95).
    repeat split; try assumption; lia.
  - split; [repeat split |].
    destruct (winner_confidence_table Hn) as [T _].
    destruct (winner_table Hn) as (A & B & _).
    exists (Z.min (60 + 10 * Z.of_nat (negativeScoreOf text)) 95).
    repeat split; try assumption; lia.
  - split; [repeat split |].
    destruct neutral_table as (A & B & _).
    exists 70. repeat split; try assumption; lia.
Qed.


End FallbackFacts.

(* ================================================================== *)
(** * Properties of the gateway *)
(* ================================================================== *)

Module GatewayFacts.
Import JS SentimentService Routes Spec Scenarios.

(** ** Health *)

Lemma isHealthy_iff (v : jsval) : isHealthy v = true <-> v = JStr "healthy".
Proof.
  destruct v; simpl; split; intro H; try discriminate.
  - apply String.eqb_eq in H. now subst.
  - injection H as ->. reflexivity.
Qed.


(** ** Validation of [POST /analyze] *)

Lemma textErrors_invalid (value : string) :
  value = "" \/ (5000 < String.length value)%nat ->
  exists e es, textErrors value = e :: es.
Proof.
  intros [-> | H].
  - eexists; eexists; reflexivity.
  - unfold textErrors, MAX_TEXT_LENGTH.
    destruct (Nat.eqb_spec (String.length value) 0) as [E | _]; [lia |].
    destruct (Nat.leb_spec (String.length value) 5000) as [L | _]; [lia |].
    rewrite andb_false_r. eexists; eexists; reflexivity.
Qed.

(** C1 (as stated, refuted). The text made of the letter "a" followed by
    5000 spaces is longer than 5000 characters, yet the request is
    accepted: the inference endpoint is called with the trimmed text and
    [totalRequests] is incremented. *)
Lemma padded_text_is_analyzed :
  ~ (forall (b : AnalyzeBody) (ex : Exchange) (sv : Service) (text : string),
        bodyText b = Some text ->
        trim text = "" \/ (5000 < String.length text)%nat ->
        status (fst (postAnalyze b ex sv)) = 400
        /\ snd (postAnalyze b ex sv) = sv).
Proof.
  intro H.
  specialize (H {| bodyText := Some ("a" ++ replicate 5000 " "); bodyOptions := None |}
                (answeredAfter 12 positiveAnswer) initialService
                ("a" ++ replicate 5000 " ") eq_refl).
  destruct H as [H _].
  - right. vm_compute. lia.
  - vm_compute in H. discriminate H.
Qed.

(** C1 (amended). For every analyze request whose text, once trimmed, is
    empty or longer than 5000 characters (an absent text counts as empty),
    the operation answers 400 with the list of violated rules, and neither
    calls the inference endpoint nor changes the statistics. *)
Theorem invalid_text_is_rejected (b : AnalyzeBody) (ex : Exchange) (sv : Service) :
  sanitizeText (bodyText b) = "" \/ (5000 < String.length (sanitizeText (bodyText b)))%nat ->
  exists details : list string,
    details <> []
    /\ fst (postAnalyze b ex sv) = {| status := 400; body := ValidationFailed details |}
    /\ stats (snd (postAnalyze b ex sv)) = stats sv
    /\ dispatched (snd (postAnalyze b ex sv)) = dispatched sv.
Proof.
  intro H. unfold postAnalyze, validateTextInput.
  destruct (textErrors_invalid H) as (e & es & E). rewrite E. cbn [app].
  exists (e :: (es ++ optionErrors (bodyOptions b))%list).
  repeat split. discriminate.
Qed.

Lemma invalid_text_is_rejected_witness :
  exists details : list string,
    details <> []
    /\ fst (postAnalyze {| bodyText := Some "   "; bodyOptions := None |}
                        (answeredAfter 12 positiveAnswer) initialService)
       = {| status := 400; body := ValidationFailed details |}
    /\ stats (snd (postAnalyze {| bodyText := Some "   "; bodyOptions := None |}
                               (answeredAfter 12 positiveAnswer) initialService))
       = stats initialService
    /\ dispatched (snd (postAnalyze {| bodyText := Some "   "; bodyOptions := None |}
                                    (answeredAfter 12 positiveAnswer) initialService))
       = dispatched initialService.
Proof.
  apply (@invalid_text_is_rejected
           {| bodyText := Some "   "; bodyOptions := None |}
           (answeredAfter 12 positiveAnswer) initialService).
  left. reflexivity.
Defined.

(** ** Statistics *)

Lemma step_total (sv : Service) (c : Call) :
  totalRequests (stats (step sv c)) = totalRequests (stats sv) + 1.
Proof.
  destruct c as [text options ex | batch options ex]; cbn [step];
    unfold analyzeSentiment, analyzeBatchSentiment, analyzeCatch, batchCatch;
    destruct (reply ex) as [data | e]; try reflexivity.
  - destruct (transformMLResponse data _ None); reflexivity.
  - destruct (transformPredictions data _ batch); reflexivity.
Qed.

(** Every call counts once in [totalRequests]. *)
Lemma run_total (calls : list Call) (sv : Service) :
  totalRequests (stats (run calls sv))
  = totalRequests (stats sv) + Z.of_nat (List.length calls).
Proof.
  revert sv. induction calls as [|c calls IH]; intro sv; cbn [run fold_left List.length].
  - lia.
  - fold (run calls (step sv c)). rewrite IH, step_total. lia.
Qed.

(** A call whose response shaping does not throw updates the statistics
    once, with its sample. *)
Lemma step_shapes (sv : Service) (c : Call) :
  shapes c = true ->
  exists (ok : bool) (now : Z),
    stats (step sv c) = updateStats (sample c) ok now (incrementTotal (stats sv)).
Proof.
  destruct c as [text options ex | batch options ex];
    unfold shapes, sample; cbn [exchangeOf step];
    unfold analyzeSentiment, analyzeBatchSentiment, analyzeCatch, batchCatch;
    destruct (reply ex) as [data | e]; intro H.
  - destruct (transformMLResponse data _ None); [| discriminate].
    eexists; eexists; reflexivity.
  - eexists; eexists; reflexivity.
  - destruct (transformPredictions data _ batch); [| discriminate].
    eexists; eexists; reflexivity.
  - eexists; eexists; reflexivity.
Qed.

Lemma step_balanced (sv : Service) (c : Call) :
  shapes c = true -> balanced (stats sv) -> balanced (stats (step sv c)).
Proof.
  intros Hc Hb. destruct (@step_shapes sv c Hc) as (ok & now & ->).
  unfold balanced in *. destruct ok; cbn; lia.
Qed.

(** The invariant holds along every run whose answers can all be shaped. *)
Lemma run_balanced (calls : list Call) (sv : Service) :
  Forall (fun c => shapes c = true) calls ->
  balanced (stats sv) -> balanced (stats (run calls sv)).
Proof.
  intro H. revert sv. induction H as [|c calls Hc _ IH]; intros sv Hb.
  - exact Hb.
  - cbn [run fold_left]. apply IH. now apply step_balanced.
Qed.

(** C2 (the code departs from the claim). When the answer of the inference
    endpoint cannot be shaped, the exception is raised after the call was
    counted as successful and the [catch] block counts it again as failed:
    after one call [totalRequests] is 1 while [successfulRequests] and
    [failedRequests] are both 1. *)
Theorem unshapable_answer_is_counted_twice :
  let single :=
    stats (snd (analyzeSentiment "fine" noOptions
                  (answeredAfter 12 stringConfidence) initialService)) in
  let batch :=
    stats (snd (analyzeBatchSentiment ["fine"; "bad"] noOptions
                  (answeredAfter 12 noPredictions) initialService)) in
  (totalRequests single = 1
   /\ successfulRequests single = 1 /\ failedRequests single = 1)
  /\ (totalRequests batch = 1
      /\ successfulRequests batch = 1 /\ failedRequests batch = 1).
Proof. cbv zeta. vm_compute. repeat split; reflexivity. Qed.

(** [Math.round] of an integer quotient is the rational quotient rounded
    half up. *)
Lemma roundDiv_roundHalfUp (a s n : Z) :
  0 < n ->
  roundDiv (a * (n - 1) + s) n
  = roundHalfUp (inject_Z a + (inject_Z s - inject_Z a) / inject_Z n).
Proof.
  intro Hn. unfold roundDiv, roundHalfUp.
  destruct n as [|p|p]; try lia.
  assert (E : (inject_Z a + (inject_Z s - inject_Z a) / inject_Z (Zpos p) + (1 # 2)
               == (2 * (a * (Zpos p - 1) + s) + Zpos p) # (2 * p))%Q).
  { unfold Qeq. cbn [Qnum Qden Qplus Qopp Qmult Qinv Qminus Qdiv inject_Z].
    rewrite ?Pos2Z.inj_mul. ring. }
  rewrite (Qfloor_comp _ _ E). cbn [Qfloor]. reflexivity.
Qed.

(** On a grid of small values the integer model of the average agrees
    with the double arithmetic of the source. *)
Example roundDiv_agrees_with_doubles :
  forallb (fun total =>
    forallb (fun average =>
      forallb (fun responseTime =>
        PrimFloat.eqb
          (ofZ (roundDiv (average * (total - 1) + responseTime) total))
          (averageInDoubles (ofZ average) (ofZ total) (ofZ responseTime)))
        (map Z.of_nat (seq 0 40)))
      (map Z.of_nat (seq 0 40)))
    (map Z.of_nat (seq 1 12))
  = true.
Proof. vm_compute. reflexivity. Qed.

(** C3 (as stated, refuted). After calls with samples 1 and 2 the stored
    average is 2, while the running mean [1 + (2 - 1)/2] and the
    arithmetic mean of the two samples are both 3/2. *)
Lemma average_is_not_the_exact_mean :
  let st1 := stats (run [firstCall] initialService) in
  let st2 := stats (run [firstCall; secondCall] initialService) in
  totalRequests st2 = 2
  /\ averageResponseTime st1 = 1
  /\ averageResponseTime st2 = 2
  /\ ~ Qeq (inject_Z (averageResponseTime st2))
           (inject_Z (averageResponseTime st1)
            + (inject_Z (sample secondCall) - inject_Z (averageResponseTime st1))
              / inject_Z (totalRequests st2))
  /\ ~ Qeq (inject_Z (averageResponseTime st2)) (mean [sample firstCall; sample secondCall]).
Proof.
  cbv zeta. repeat split; try (vm_compute; reflexivity);
    intro H; vm_compute in H; discriminate H.
Qed.

(** C3 (amended). After every completed inference call whose answer can be
    shaped, with response-time sample [s], the stored average is the
    running mean [avg + (s - avg)/n] rounded to the nearest integer, a tie
    going up, where [n] is [totalRequests] after its increment; being
    rounded at every call, it need not equal the arithmetic mean of the
    samples. *)
Theorem average_is_rounded_running_mean (sv : Service) (c : Call) :
  0 <= totalRequests (stats sv) ->
  shapes c = true ->
  totalRequests (stats (step sv c)) = totalRequests (stats sv) + 1
  /\ averageResponseTime (stats (step sv c))
     = roundHalfUp
         (inject_Z (averageResponseTime (stats sv))
          + (inject_Z (sample c) - inject_Z (averageResponseTime (stats sv)))
            / inject_Z (totalRequests (stats (step sv c)))).
Proof.
  intros Hn Hc. split; [apply step_total |].
  rewrite step_total.
  destruct (@step_shapes sv c Hc) as (ok & now & ->).
  cbn [averageResponseTime updateStats incrementTotal totalRequests].
  apply roundDiv_roundHalfUp. lia.
Qed.

Lemma average_is_rounded_running_mean_witness :
  totalRequests (stats (step initialService firstCall))
  = totalRequests (stats initialService) + 1
  /\ averageResponseTime (stats (step initialService firstCall))
     = roundHalfUp
         (inject_Z (averageResponseTime (stats initialService))
          + (inject_Z (sample firstCall)
             - inject_Z (averageResponseTime (stats initialService)))
            / inject_Z (totalRequests (stats (step initialService firstCall)))).
Proof.
  apply (@average_is_rounded_running_mean initialService firstCall).
  - vm_compute. discriminate.
  - vm_compute. reflexivity.
Defined.

(** ** Response shaping *)

Lemma getProp_returns (v : jsval) (k k' : string) (x : jsval) :
  getProp v k = Returns x -> getProp v k' = Returns (field v k').
Proof.
  unfold field. destruct v; cbn; intro H; try discriminate; reflexivity.
Qed.

Lemma mapM_Forall2 {A B} (f : A -> completion B) (xs : list A) (ys : list B) :
  mapM f xs = Returns ys -> Forall2 (fun x y => f x = Returns y) xs ys.
Proof.
  revert ys. induction xs as [|x xs IH]; intros ys H; cbn in H.
  - injection H as <-. constructor.
  - destruct (f x) as [y|e] eqn:E; cbn in H; [| discriminate].
    destruct (mapM f xs) as [ys'|e] eqn:E'; cbn in H; [| discriminate].
    injection H as <-. constructor; auto.
Qed.

Lemma mapM_returns {A B} (f : A -> completion B) (xs : list A) :
  Forall (fun x => exists y, f x = Returns y) xs -> exists ys, mapM f xs = Returns ys.
Proof.
  induction 1 as [|x xs [y Hy] _ [ys IH]]; cbn.
  - eexists; reflexivity.
  - rewrite Hy, IH. cbn. eexists; reflexivity.
Qed.

Lemma Forall2_nth {A B} (R : A -> B -> Prop) (xs : list A) (ys : list B) :
  Forall2 R xs ys ->
  List.length ys = List.length xs
  /\ forall i x, nth_error xs i = Some x -> exists y, nth_error ys i = Some y /\ R x y.
Proof.
  induction 1 as [|x y xs ys Hxy _ [IHl IHn]]; split; cbn.
  - reflexivity.
  - intros [|i] x H; discriminate H.
  - now rewrite IHl.
  - intros [|i] x' H; cbn in *.
    + injection H as <-. eauto.
    + apply IHn, H.
Qed.

(** What a returned result holds. *)
Lemma transform_inversion (r : jsval) (pt : float) (ot : option string) (res : ApiResult) :
  transformMLResponse r pt ot = Returns res ->
  sentiment res = field r "sentiment"
  /\ roundTo3 (if truthy (field r "confidence") then field r "confidence" else JNum 0%float)
     = Returns (confidence res)
  /\ processingTime res = pt
  /\ (if truthy (field r "probabilities")
      then exists out, probabilities res = Some out
                       /\ mapM roundEntry (entries (field r "probabilities")) = Returns out
      else probabilities res = None)
  /\ text res = match ot with
                | Some t => if truthyString t then Some t else None
                | None => None
                end
  /\ emoji res = getSentimentEmoji (field r "sentiment").
Proof.
  unfold transformMLResponse. intro H.
  destruct (getProp r "sentiment") as [s|e] eqn:Es; cbn in H; [| discriminate].
  rewrite (@getProp_returns r "sentiment" "confidence" s Es) in H. cbn in H.
  pose proof (@getProp_returns r "sentiment" "probabilities" s Es) as Ep.
  rewrite (@getProp_returns r "sentiment" "sentiment" s Es) in Es. injection Es as Es.
  destruct (roundTo3 _) as [c|e] eqn:Ec; cbn in H; [| discriminate].
  rewrite Ep in H. cbn in H.
  destruct (truthy (field r "probabilities")) eqn:Et.
  - destruct (mapM roundEntry _) as [out|e] eqn:Em; cbn in H; [| discriminate].
    injection H as <-. cbn. subst s. repeat split. eauto.
  - cbn in H. injection H as <-. cbn. subst s. repeat split.
Qed.

Lemma roundEntry_hasToFixed (kv : string * jsval) :
  hasToFixed (snd kv) = true -> exists y, roundEntry kv = Returns y.
Proof.
  destruct kv as [k v]. cbn. destruct v; intro H; try discriminate H.
  cbn. eexists; reflexivity.
Qed.

(** A shapable answer is shaped. *)
Lemma transform_returns (r : jsval) (pt : float) (ot : option string) :
  shapable r = true -> exists res, transformMLResponse r pt ot = Returns res.
Proof.
  unfold shapable, transformMLResponse. intro H.
  destruct (getProp r "confidence") as [c|e] eqn:Ec; [| discriminate].
  rewrite (@getProp_returns r "confidence" "sentiment" c Ec). cbn.
  apply andb_true_iff in H as [Hc Hp].
  assert (Hr : exists y, roundTo3 (if truthy c then c else JNum 0%float) = Returns y).
  { destruct (truthy c); cbn in Hc.
    - destruct c; try discriminate Hc. cbn. eexists; reflexivity.
    - cbn. eexists; reflexivity. }
  destruct Hr as [y ->]. cbn.
  rewrite (@getProp_returns r "confidence" "probabilities" c Ec). cbn.
  unfold numericOrAbsent in Hp.
  destruct (truthy (field r "probabilities")); cbn in Hp |- *.
  - destruct (@mapM_returns _ _ roundEntry (entries (field r "probabilities"))) as [out ->].
    { apply Forall_forall. intros kv Hin. apply roundEntry_hasToFixed.
      rewrite forallb_forall in Hp. now apply Hp. }
    cbn. eexists; reflexivity.
  - eexists; reflexivity.
Qed.

(** ** Rounding to three decimals *)









(** The probabilities of [unnormalizedAnswer] come back as they are. *)
Example unnormalized_probabilities_pass_through :
  exists result,
    transformMLResponse unnormalizedAnswer 12%float None = Returns result
    /\ confidence result = 0.935%float
    /\ probabilities result
       = Some [("Positive", 0.5%float); ("Negative", 0.5%float); ("Neutral", 0.5%float)].
Proof. eexists. vm_compute. repeat split; reflexivity. Qed.




(** ** Batch results *)

Lemma withTexts_length (preds : list jsval) (k : nat) (batch : list string) :
  List.length (withTexts preds k batch) = List.length preds.
Proof.
  revert k. induction preds as [|p preds IH]; intro k; cbn; [reflexivity | now rewrite IH].
Qed.

Lemma withTexts_nth (preds : list jsval) (k : nat) (batch : list string) (i : nat) (p : jsval) :
  nth_error preds i = Some p ->
  nth_error (withTexts preds k batch) i = Some (p, nth_error batch (k + i)).
Proof.
  revert k i. induction preds as [|q preds IH]; intros k [|i] H; cbn in *; try discriminate.
  - injection H as ->. now rewrite Nat.add_0_r.
  - rewrite (IH (S k) i H). do 3 f_equal. lia.
Qed.

(** The text of a shaped prediction is the text it was shaped with. *)
Lemma transformPrediction_text (perItem : float) (p : jsval) (t : string) (r : ApiResult) :
  truthyString t = true ->
  transformPrediction perItem (p, Some t) = Returns r ->
  text r = Some t /\ processingTime r = perItem.
Proof.
  unfold transformPrediction. cbn [fst snd]. intros Ht H.
  destruct (getProp p "sentiment") as [s|e]; cbn [bind] in H; [| discriminate].
  destruct (getProp p "confidence") as [c|e]; cbn [bind] in H; [| discriminate].
  destruct (getProp p "probabilities") as [q|e]; cbn [bind] in H; [| discriminate].
  apply transform_inversion in H. destruct H as (_ & _ & Hp & _ & Hx & _).
  rewrite Ht in Hx. auto.
Qed.

Lemma transformPrediction_returns (perItem : float) (p : jsval) (ot : option string) :
  shapable p = true -> exists r, transformPrediction perItem (p, ot) = Returns r.
Proof.
  intro H. unfold transformPrediction. cbn [fst snd].
  pose proof H as H'. unfold shapable in H'.
  destruct (getProp p "confidence") as [c|e] eqn:Ec; [| discriminate].
  rewrite (@getProp_returns p "confidence" "sentiment" c Ec).
  rewrite (@getProp_returns p "confidence" "probabilities" c Ec).
  cbn [bind]. apply transform_returns.
  unfold shapable. cbn. exact H'.
Qed.

Lemma withTexts_shapable (perItem : float) (batch : list string)
    (preds : list jsval) (k : nat) :
  Forall (fun p => shapable p = true) preds ->
  Forall (fun entry => exists r, transformPrediction perItem entry = Returns r)
         (withTexts preds k batch).
Proof.
  intro H. revert k. induction H as [|p preds Hp _ IH]; intro k; cbn [withTexts].
  - constructor.
  - constructor; [now apply transformPrediction_returns | apply IH].
Qed.

(** C4. For every valid batch of texts and every answer whose
    [predictions] array has as many elements, a result array returned by
    [analyzeBatchSentiment] has the length of the input and is aligned with
    it: the element at index [i] is the prediction at index [i] shaped with
    the text at index [i], and it carries that text.  A result array is
    returned whenever every prediction can be shaped. *)
Theorem batch_results_are_index_aligned
    (batch : list string) (options : Options) (ex : Exchange) (sv : Service)
    (data : jsval) (preds : list jsval) :
  reply ex = Resolved data ->
  getProp data "predictions" = Returns (JArr preds) ->
  List.length preds = List.length batch ->
  Forall (fun t => truthyString t = true) batch ->
  (forall (results : list ApiResult) (sv' : Service),
      analyzeBatchSentiment batch options ex sv = (Returns results, sv') ->
      List.length results = List.length batch
      /\ forall (i : nat) (t : string),
           nth_error batch i = Some t ->
           exists (p : jsval) (r : ApiResult),
             nth_error preds i = Some p
             /\ nth_error results i = Some r
             /\ transformPrediction
                  (PrimFloat.div (ofZ (clock ex 1 - clock ex 0)) (ofNat (List.length batch)))
                  (p, Some t) = Returns r
             /\ text r = Some t)
  /\ (Forall (fun p => shapable p = true) preds ->
      exists (results : list ApiResult) (sv' : Service),
        analyzeBatchSentiment batch options ex sv = (Returns results, sv')).
Proof.
  intros Hreply Hpred Hlen Hvalid.
  unfold analyzeBatchSentiment, transformPredictions. rewrite Hreply, Hpred. cbn [bind].
  set (perItem := PrimFloat.div (ofZ (clock ex 1 - clock ex 0)) (ofNat (List.length batch))).
  split.
  - intros results sv' H.
    destruct (mapM (transformPrediction perItem) (withTexts preds 0 batch))
      as [rs|e] eqn:Em; [| discriminate H].
    injection H as <- _.
    apply mapM_Forall2, Forall2_nth in Em. destruct Em as [El En].
    rewrite withTexts_length in El. split; [congruence |].
    intros i t Ht.
    destruct (nth_error preds i) as [p|] eqn:Ep.
    + destruct (En i _ (@withTexts_nth preds 0 batch i p Ep)) as (r & Hr & Hp).
      cbn [Nat.add] in Hp. rewrite Ht in Hp.
      exists p, r. repeat split; try assumption.
      apply (@transformPrediction_text perItem p t r); [| exact Hp].
      rewrite Forall_forall in Hvalid. apply Hvalid. eapply nth_error_In, Ht.
    + apply nth_error_None in Ep. assert (i < List.length batch)%nat
        by (apply nth_error_Some; congruence). lia.
  - intro Hs.
    destruct (@mapM_returns _ _ (transformPrediction perItem) (withTexts preds 0 batch))
      as [rs ->].
    + now apply withTexts_shapable.
    + eexists; eexists; reflexivity.
Qed.

Lemma batch_results_are_index_aligned_witness :
  (forall (results : list ApiResult) (sv' : Service),
      analyzeBatchSentiment twoTexts noOptions batchExchange initialService
      = (Returns results, sv') ->
      List.length results = List.length twoTexts
      /\ forall (i : nat) (t : string),
           nth_error twoTexts i = Some t ->
           exists (p : jsval) (r : ApiResult),
             nth_error twoPredictions i = Some p
             /\ nth_error results i = Some r
             /\ transformPrediction
                  (PrimFloat.div (ofZ (clock batchExchange 1 - clock batchExchange 0))
                                 (ofNat (List.length twoTexts)))
                  (p, Some t) = Returns r
             /\ text r = Some t)
  /\ (Forall (fun p => shapable p = true) twoPredictions ->
      exists (results : list ApiResult) (sv' : Service),
        analyzeBatchSentiment twoTexts noOptions batchExchange initialService
        = (Returns results, sv')).
Proof.
  apply (@batch_results_are_index_aligned twoTexts noOptions batchExchange initialService
           (JObj [("predictions", JArr twoPredictions)]) twoPredictions).
  - reflexivity.
  - reflexivity.
  - reflexivity.
  - repeat constructor.
Defined.

(** The two results of that batch, in the order of the texts. *)
Example batch_of_two :
  exists r1 r2 sv',
    analyzeBatchSentiment twoTexts noOptions batchExchange initialService
    = (Returns [r1; r2], sv')
    /\ (sentiment r1, text r1) = (JStr "Positive", Some "I love it")
    /\ (sentiment r2, text r2) = (JStr "Negative", Some "awful").
Proof. do 3 eexists. vm_compute. repeat split; reflexivity. Qed.

End GatewayFacts.

(* ================================================================== *)
(** * Further properties: strings *)
(* ================================================================== *)

Module StringFacts.
Import JS.

Lemma ltrim_length (s : string) : (String.length (ltrim s) <= String.length s)%nat.
Proof.
  induction s as [|c s IH]; cbn; [lia |].
  destruct (isWhitespace c); cbn; lia.
Qed.

Lemma rtrim_length (s : string) : (String.length (rtrim s) <= String.length s)%nat.
Proof.
  induction s as [|c s IH]; cbn; [lia |].
  destruct (rtrim s); [destruct (isWhitespace c) |]; cbn in *; lia.
Qed.

Lemma trim_length (s : string) : (String.length (trim s) <= String.length s)%nat.
Proof.
  unfold trim. pose proof (rtrim_length (ltrim s)). pose proof (ltrim_length s). lia.
Qed.

Lemma rtrim_cons (c : ascii) (s : string) :
  isWhitespace c = false -> rtrim (String c s) = String c (rtrim s).
Proof.
  intro H. cbn. destruct (rtrim s); [now rewrite H | reflexivity].
Qed.

Lemma rtrim_cons_kept (c d : ascii) (s r : string) :
  rtrim s = String d r -> rtrim (String c s) = String c (String d r).
Proof. intro H. cbn [rtrim]. now rewrite H. Qed.

Lemma rtrim_idempotent (s : string) : rtrim (rtrim s) = rtrim s.
Proof.
  induction s as [|c s IH]; [reflexivity |].
  cbn [rtrim]. destruct (rtrim s) as [|d r] eqn:E.
  - destruct (isWhitespace c) eqn:W; [reflexivity |]. cbn. now rewrite W.
  - now apply rtrim_cons_kept.
Qed.

(** A left-trimmed string is empty or starts with a character that is not
    whitespace. *)
Lemma ltrim_head (s : string) :
  ltrim s = EmptyString
  \/ exists c t, ltrim s = String c t /\ isWhitespace c = false.
Proof.
  induction s as [|c s IH]; [now left |].
  cbn. destruct (isWhitespace c) eqn:W; [exact IH |]. right. eauto.
Qed.

Lemma trim_idempotent (s : string) : trim (trim s) = trim s.
Proof.
  unfold trim. destruct (ltrim_head s) as [E | (c & t & E & W)]; rewrite E.
  - reflexivity.
  - rewrite (@rtrim_cons c t W). cbn [ltrim]. rewrite W.
    rewrite <- (@rtrim_cons c t W). apply rtrim_idempotent.
Qed.

End StringFacts.

(* ================================================================== *)
(** * Further properties: the gateway *)
(* ================================================================== *)

Module ServiceProperties.
Import JS SentimentService Routes Endpoints Spec Scenarios GatewayFacts StringFacts.

(** ** Validation *)

(** The text of a request passes the chain on [text]. *)
Definition textOk (value : string) : bool :=
  (1 <=? String.length value)%nat && (String.length value <=? 5000)%nat.

Definition modelOk (options : option Options) : bool :=
  match options with
  | Some o => match optModel o with Some m => isIn m allowedModels | None => true end
  | None => true
  end.

Lemma textErrors_nil (value : string) : textErrors value = [] <-> textOk value = true.
Proof.
  unfold textErrors, textOk, MAX_TEXT_LENGTH, check.
  destruct (Nat.eqb_spec (String.length value) 0) as [E | E];
    destruct (Nat.leb_spec 1 (String.length value)) as [L1 | L1];
    destruct (Nat.leb_spec (String.length value) 5000) as [L2 | L2];
    cbn; split; intro H; try reflexivity; try discriminate H; lia.
Qed.

Lemma optionErrors_nil (options : option Options) :
  optionErrors options = [] <-> modelOk options = true.
Proof.
  unfold optionErrors, modelOk, check. destruct options as [o|]; [| tauto].
  destruct (optModel o) as [m|]; cbn [app]; [| tauto].
  destruct (isIn m allowedModels); split; intro H; try reflexivity; discriminate H.
Qed.

(** The statuses of the error middleware on what the service throws. *)
Lemma translate_status (fallback : string) (error : exn) :
  status (errorHandler (translate fallback error))
  = if codeIs "ECONNREFUSED" error || codeIs "ETIMEDOUT" error
       || match errorResponse error with Some _ => true | None => false end
       || includes fallback "ML service"
    then 503 else 500.
Proof.
  unfold translate.
  destruct (codeIs "ECONNREFUSED" error); [reflexivity |].
  destruct (codeIs "ETIMEDOUT" error); [reflexivity |].
  destruct (errorResponse error) as [r|]; [reflexivity |].
  cbn. destruct (includes fallback "ML service"); reflexivity.
Qed.

Lemma errorHandler_Error_status (msg : string) :
  status (errorHandler (Error msg)) = 503 \/ status (errorHandler (Error msg)) = 500.
Proof. cbn. destruct (includes msg "ML service"); auto. Qed.

Lemma translate_is_Error (fallback : string) (error : exn) :
  exists msg, translate fallback error = Error msg.
Proof.
  unfold translate.
  destruct (codeIs "ECONNREFUSED" error); [eauto |].
  destruct (codeIs "ETIMEDOUT" error); [eauto |].
  destruct (errorResponse error); eauto.
Qed.

(** What [analyzeSentiment] throws is a translated error. *)
Lemma analyzeSentiment_throws (text : string) (options : Options) (ex : Exchange)
    (sv sv' : Service) (thrown : exn) :
  analyzeSentiment text options ex sv = (Throws thrown, sv') ->
  exists error, thrown = translate "Failed to analyze sentiment. Please try again." error.
Proof.
  unfold analyzeSentiment, analyzeCatch. destruct (reply ex) as [data | e].
  - destruct (transformMLResponse data _ None) as [r | err]; intro H.
    + discriminate H.
    + injection H as <- _. eauto.
  - intro H. injection H as <- _. eauto.
Qed.

Lemma analyzeBatchSentiment_throws (batch : list string) (options : Options)
    (ex : Exchange) (sv sv' : Service) (thrown : exn) :
  analyzeBatchSentiment batch options ex sv = (Throws thrown, sv') ->
  exists error, thrown = handleMLServiceError error.
Proof.
  unfold analyzeBatchSentiment, batchCatch. destruct (reply ex) as [data | e].
  - destruct (transformPredictions data _ batch) as [r | err]; intro H.
    + discriminate H.
    + injection H as <- _. eauto.
  - intro H. injection H as <- _. eauto.
Qed.


Lemma postAnalyze_accepts (b : AnalyzeBody) (ex : Exchange) (sv : Service) :
  snd (validateTextInput b) = [] ->
  postAnalyze b ex sv
  = match analyzeSentiment (sanitizeText (bodyText b))
                           (analyzeOptions (bodyOptions b)) ex sv with
    | (Returns result, sv') => ({| status := 200; body := Analysis result |}, sv')
    | (Throws error, sv') => (errorHandler error, sv')
    end.
Proof.
  unfold postAnalyze, validateTextInput. cbn [snd]. intros ->. reflexivity.
Qed.

Lemma validation_nil (b : AnalyzeBody) :
  snd (validateTextInput b) = []
  <-> textOk (sanitizeText (bodyText b)) && modelOk (bodyOptions b) = true.
Proof.
  unfold validateTextInput. cbn [snd].
  rewrite andb_true_iff, <- textErrors_nil, <- optionErrors_nil.
  split.
  - intro H. apply app_eq_nil in H. exact H.
  - intros [-> ->]. reflexivity.
Qed.

Lemma postAnalyze_status (b : AnalyzeBody) (ex : Exchange) (sv : Service) :
  snd (validateTextInput b) = [] ->
  status (fst (postAnalyze b ex sv)) = 200
  \/ status (fst (postAnalyze b ex sv)) = 500
  \/ status (fst (postAnalyze b ex sv)) = 503.
Proof.
  intro H. rewrite (@postAnalyze_accepts b ex sv H).
  destruct (analyzeSentiment _ _ ex sv) as [[result | thrown] sv'] eqn:E; cbn [fst].
  - now left.
  - right. apply analyzeSentiment_throws in E. destruct E as [error ->].
    rewrite translate_status. cbn [includes]. 
    destruct (_ || _ || _ || _); auto.
Qed.


(** The model name [POST /analyze] forwards. *)
Definition forwardedModel (options : option Options) : string :=
  match options with
  | Some o => match optModel o with
              | Some m => if truthyString m then m else "random_forest"
              | None => "random_forest"
              end
  | None => "random_forest"
  end.

Lemma forwardedModel_allowed (options : option Options) :
  modelOk options = true -> isIn (forwardedModel options) allowedModels = true.
Proof.
  unfold modelOk, forwardedModel. destruct options as [o|]; [| reflexivity].
  destruct (optModel o) as [m|]; [| reflexivity].
  intro H. destruct (truthyString m); [exact H | reflexivity].
Qed.

(** The request [analyzeSentiment] dispatches for [POST /analyze]. *)
Lemma analyze_dispatches (b : AnalyzeBody) (ex : Exchange) (sv : Service) :
  exists call,
    dispatched (snd (analyzeSentiment (sanitizeText (bodyText b))
                                      (analyzeOptions (bodyOptions b)) ex sv))
    = call :: dispatched sv
    /\ path call = "/predict"
    /\ texts call = [sanitizeText (bodyText b)]
    /\ model call = forwardedModel (bodyOptions b)
    /\ timeout call = 30000.
Proof.
  unfold analyzeSentiment, analyzeCatch.
  eexists. split.
  - destruct (reply ex) as [data | e]; [destruct (transformMLResponse data _ None) |];
      cbn [snd dispatched withStats dispatch]; reflexivity.
  - cbn [path texts model timeout]. repeat split.
    unfold analyzeOptions, forwardedModel, noOptions. cbn [optModel].
    destruct (bodyOptions b) as [o|]; [| reflexivity].
    destruct (optModel o) as [m|]; [| reflexivity].
    destruct (truthyString m) eqn:T; [now rewrite T | reflexivity].
Qed.

(** X2. A valid request whose answer can be shaped is answered 200 with the
    shaped answer; the inference endpoint has received exactly one request,
    on [/predict], with the trimmed text, a model among the three allowed
    names and the 30 s timeout; the call counts as one request and one
    success. *)
Theorem accepted_request_is_forwarded_once
    (b : AnalyzeBody) (ex : Exchange) (sv : Service) (data : jsval) :
  textOk (sanitizeText (bodyText b)) && modelOk (bodyOptions b) = true ->
  reply ex = Resolved data ->
  shapable data = true ->
  exists (result : ApiResult) (call : UpstreamCall),
    fst (postAnalyze b ex sv) = {| status := 200; body := Analysis result |}
    /\ transformMLResponse data (ofZ (clock ex 1 - clock ex 0)) None = Returns result
    /\ dispatched (snd (postAnalyze b ex sv)) = call :: dispatched sv
    /\ path call = "/predict"
    /\ texts call = [sanitizeText (bodyText b)]
    /\ isIn (model call) allowedModels = true
    /\ timeout call = 30000
    /\ totalRequests (stats (snd (postAnalyze b ex sv))) = totalRequests (stats sv) + 1
    /\ successfulRequests (stats (snd (postAnalyze b ex sv)))
       = successfulRequests (stats sv) + 1
    /\ failedRequests (stats (snd (postAnalyze b ex sv))) = failedRequests (stats sv).
Proof.
  intros Hv Hr Hs.
  pose proof Hv as Hm. apply andb_true_iff in Hm. destruct Hm as [_ Hm].
  apply validation_nil in Hv.
  destruct (analyze_dispatches b ex sv) as (call & D & P & T & M & O).
  destruct (@transform_returns data (ofZ (clock ex 1 - clock ex 0)) None Hs) as [result R].
  rewrite (@postAnalyze_accepts b ex sv Hv).
  revert D. unfold analyzeSentiment. rewrite Hr, R. cbn [fst snd]. intro D.
  exists result, call. repeat split; try assumption.
  rewrite M. now apply forwardedModel_allowed.
Qed.

(** A request with padded text, and a refused connection. *)
Definition paddedRequest : AnalyzeBody :=
  {| bodyText := Some "  I love it "; bodyOptions := None |}.

Definition positiveData : jsval :=
  JObj [("sentiment", JStr "Positive"); ("confidence", JNum 0.93456%float)].

Definition refused : AxiosError :=
  {| code := Some "ECONNREFUSED"; response := None;
     message := "connect ECONNREFUSED 127.0.0.1:8000" |}.

Lemma accepted_request_is_forwarded_once_witness :
  exists (result : ApiResult) (call : UpstreamCall),
    fst (postAnalyze paddedRequest (answeredAfter 12 positiveAnswer) initialService)
    = {| status := 200; body := Analysis result |}
    /\ transformMLResponse positiveData
         (ofZ (clock (answeredAfter 12 positiveAnswer) 1
               - clock (answeredAfter 12 positiveAnswer) 0)) None = Returns result
    /\ dispatched (snd (postAnalyze paddedRequest (answeredAfter 12 positiveAnswer)
                                    initialService))
       = call :: dispatched initialService
    /\ path call = "/predict"
    /\ texts call = [sanitizeText (bodyText paddedRequest)]
    /\ isIn (model call) allowedModels = true
    /\ timeout call = 30000
    /\ totalRequests (stats (snd (postAnalyze paddedRequest
                                    (answeredAfter 12 positiveAnswer) initialService)))
       = totalRequests (stats initialService) + 1
    /\ successfulRequests (stats (snd (postAnalyze paddedRequest
                                         (answeredAfter 12 positiveAnswer) initialService)))
       = successfulRequests (stats initialService) + 1
    /\ failedRequests (stats (snd (postAnalyze paddedRequest
                                     (answeredAfter 12 positiveAnswer) initialService)))
       = failedRequests (stats initialService).
Proof.
  apply (@accepted_request_is_forwarded_once paddedRequest
           (answeredAfter 12 positiveAnswer) initialService positiveData).
  - vm_compute. reflexivity.
  - reflexivity.
  - vm_compute. reflexivity.
Defined.

(** X3. When the request to the inference endpoint is rejected, a valid
    analyze request counts as one request and one failure, and the answer
    is 503 if the rejection carries the code ECONNREFUSED or ETIMEDOUT or
    an HTTP response, and 500 otherwise. *)
Theorem upstream_failure_is_counted_and_reported
    (b : AnalyzeBody) (ex : Exchange) (sv : Service) (e : AxiosError) :
  textOk (sanitizeText (bodyText b)) && modelOk (bodyOptions b) = true ->
  reply ex = Rejected e ->
  status (fst (postAnalyze b ex sv))
  = (if codeIs "ECONNREFUSED" (AxiosFailure e) || codeIs "ETIMEDOUT" (AxiosFailure e)
        || match response e with Some _ => true | None => false end
     then 503 else 500)
  /\ totalRequests (stats (snd (postAnalyze b ex sv))) = totalRequests (stats sv) + 1
  /\ successfulRequests (stats (snd (postAnalyze b ex sv))) = successfulRequests (stats sv)
  /\ failedRequests (stats (snd (postAnalyze b ex sv))) = failedRequests (stats sv) + 1.
Proof.
  intros Hv Hr. apply validation_nil in Hv.
  rewrite (@postAnalyze_accepts b ex sv Hv).
  unfold analyzeSentiment, analyzeCatch. rewrite Hr. cbn [fst snd].
  rewrite translate_status. cbn [errorResponse includes stats withStats dispatch
    updateStats incrementTotal totalRequests successfulRequests failedRequests].
  rewrite orb_false_r. repeat split.
Qed.

Lemma upstream_failure_is_counted_and_reported_witness :
  status (fst (postAnalyze paddedRequest (answeredAfter 12 (Rejected refused)) initialService))
  = (if codeIs "ECONNREFUSED" (AxiosFailure refused)
        || codeIs "ETIMEDOUT" (AxiosFailure refused)
        || match response refused with Some _ => true | None => false end
     then 503 else 500)
  /\ totalRequests (stats (snd (postAnalyze paddedRequest
                                  (answeredAfter 12 (Rejected refused)) initialService)))
     = totalRequests (stats initialService) + 1
  /\ successfulRequests (stats (snd (postAnalyze paddedRequest
                                       (answeredAfter 12 (Rejected refused)) initialService)))
     = successfulRequests (stats initialService)
  /\ failedRequests (stats (snd (postAnalyze paddedRequest
                                   (answeredAfter 12 (Rejected refused)) initialService)))
     = failedRequests (stats initialService) + 1.
Proof.
  apply (@upstream_failure_is_counted_and_reported paddedRequest
           (answeredAfter 12 (Rejected refused)) initialService refused).
  - vm_compute. reflexivity.
  - reflexivity.
Defined.

(** ** Batch validation *)

Definition batchOk (b : BatchBody) : bool :=
  (1 <=? List.length (bodyTexts b))%nat && (List.length (bodyTexts b) <=? 100)%nat
  && forallb textOk (map trim (bodyTexts b)).

Lemma itemErrors_nil (value : string) : itemErrors value = [] <-> textOk value = true.
Proof.
  unfold itemErrors, textOk, MAX_TEXT_LENGTH, check.
  destruct (Nat.eqb_spec (String.length value) 0) as [E | E];
    destruct (Nat.leb_spec 1 (String.length value)) as [L1 | L1];
    destruct (Nat.leb_spec (String.length value) 5000) as [L2 | L2];
    cbn; split; intro H; try reflexivity; try discriminate H; lia.
Qed.

Lemma flat_map_itemErrors_nil (values : list string) :
  flat_map itemErrors values = [] <-> forallb textOk values = true.
Proof.
  induction values as [|v values IH]; cbn; [tauto |].
  rewrite andb_true_iff, <- IH, <- itemErrors_nil. split.
  - intro H. now apply app_eq_nil in H.
  - intros [-> ->]. reflexivity.
Qed.

Lemma validateBatch_nil (b : BatchBody) :
  snd (validateBatch b) = [] <-> batchOk b = true.
Proof.
  unfold validateBatch, batchOk, MAX_BATCH_SIZE, check. cbn [snd].
  rewrite andb_true_iff, <- flat_map_itemErrors_nil.
  destruct ((1 <=? List.length (bodyTexts b))%nat
            && (List.length (bodyTexts b) <=? 100)%nat); cbn [app]; split;
    intro H; try discriminate H; try tauto.
  destruct H as [H _]. discriminate H.
Qed.

Lemma postBatch_rejects (b : BatchBody) (ex : Exchange) (sv : Service) :
  snd (validateBatch b) <> [] ->
  postBatch b ex sv
  = ({| status := 400; body := ValidationFailed (snd (validateBatch b)) |}, sv).
Proof.
  unfold postBatch. destruct (validateBatch b) as [values errors]. cbn [snd].
  destruct errors; [congruence | reflexivity].
Qed.

Lemma postBatch_accepts (b : BatchBody) (ex : Exchange) (sv : Service) :
  snd (validateBatch b) = [] ->
  postBatch b ex sv
  = match analyzeBatchSentiment (map trim (bodyTexts b))
            (match batchOptions b with Some o => o | None => noOptions end) ex sv with
    | (Returns results, sv') =>
        ({| status := 200; body := BatchAnalysis results (List.length results) |}, sv')
    | (Throws error, sv') => (errorHandler error, sv')
    end.
Proof.
  unfold postBatch, validateBatch. cbn [snd]. intros ->. reflexivity.
Qed.

Lemma postBatch_status (b : BatchBody) (ex : Exchange) (sv : Service) :
  snd (validateBatch b) = [] ->
  status (fst (postBatch b ex sv)) = 200 \/ status (fst (postBatch b ex sv)) = 503.
Proof.
  intro H. rewrite (@postBatch_accepts b ex sv H).
  destruct (analyzeBatchSentiment _ _ ex sv) as [[results | thrown] sv'] eqn:E; cbn [fst].
  - now left.
  - right. apply analyzeBatchSentiment_throws in E. destruct E as [error ->].
    unfold handleMLServiceError. rewrite translate_status.
    assert (I : includes "Failed to communicate with ML service. Please try again."
                         "ML service" = true) by reflexivity.
    rewrite I, !orb_true_r. reflexivity.
Qed.

(** X4. [POST /batch] answers 400 exactly when the batch has no text or
    more than 100 texts, or holds a text that, once trimmed, is empty or
    longer than 5000 characters; such a request leaves the service as it
    was. *)
Theorem batch_rejects_exactly_the_invalid (b : BatchBody) (ex : Exchange) (sv : Service) :
  (status (fst (postBatch b ex sv)) = 400 <-> batchOk b = false)
  /\ (status (fst (postBatch b ex sv)) = 400 -> snd (postBatch b ex sv) = sv).
Proof.
  pose proof (validateBatch_nil b) as V.
  destruct (batchOk b).
  - assert (E : snd (validateBatch b) = []) by now apply V.
    pose proof (@postBatch_status b ex sv E) as S.
    split; [split |]; intro H; try discriminate H; lia.
  - assert (E : snd (validateBatch b) <> []).
    { intro H. apply V in H. discriminate H. }
    rewrite (@postBatch_rejects b ex sv E). cbn. tauto.
Qed.


(** ** Runs of the service *)

(** What one call does to the counters and to the dispatched requests. *)
Lemma step_effect (sv : Service) (c : Call) :
  exists (ds df : Z) (call : UpstreamCall),
    successfulRequests (stats (step sv c)) = successfulRequests (stats sv) + ds
    /\ failedRequests (stats (step sv c)) = failedRequests (stats sv) + df
    /\ 0 <= ds <= 1 /\ 0 <= df <= 1 /\ 1 <= ds + df
    /\ dispatched (step sv c) = call :: dispatched sv
    /\ match c with
       | Analyze text _ _ =>
           path call = "/predict" /\ texts call = [text] /\ timeout call = 30000
       | AnalyzeBatch batch _ _ =>
           path call = "/predict/batch" /\ texts call = batch /\ timeout call = 60000
       end.
Proof.
  destruct c as [text options ex | batch options ex]; cbn [step];
    unfold analyzeSentiment, analyzeBatchSentiment, analyzeCatch, batchCatch;
    destruct (reply ex) as [data | e].
  - destruct (transformMLResponse data _ None).
    + exists 1, 0. eexists. cbn. repeat split; lia.
    + exists 1, 1. eexists. cbn. repeat split; lia.
  - exists 0, 1. eexists. cbn. repeat split; lia.
  - destruct (transformPredictions data _ batch).
    + exists 1, 0. eexists. cbn. repeat split; lia.
    + exists 1, 1. eexists. cbn. repeat split; lia.
  - exists 0, 1. eexists. cbn. repeat split; lia.
Qed.


(** X7. In every run from the start of the process, whatever the
    inference endpoint answers, [totalRequests] is the number of calls and
    the two outcome counters are non-negative with
    [totalRequests <= successfulRequests + failedRequests <= 2 totalRequests]. *)
Theorem counters_stay_within_bounds (calls : list Call) :
  let st := stats (run calls initialService) in
  totalRequests st = Z.of_nat (List.length calls)
  /\ 0 <= successfulRequests st <= totalRequests st
  /\ 0 <= failedRequests st <= totalRequests st
  /\ totalRequests st <= successfulRequests st + failedRequests st <= 2 * totalRequests st.
Proof.
  cbv zeta.
  assert (G : forall (cs : list Call) (sv : Service),
             0 <= successfulRequests (stats sv) <= totalRequests (stats sv) ->
             0 <= failedRequests (stats sv) <= totalRequests (stats sv) ->
             totalRequests (stats sv)
             <= successfulRequests (stats sv) + failedRequests (stats sv)
             <= 2 * totalRequests (stats sv) ->
             0 <= successfulRequests (stats (run cs sv)) <= totalRequests (stats (run cs sv))
             /\ 0 <= failedRequests (stats (run cs sv)) <= totalRequests (stats (run cs sv))
             /\ totalRequests (stats (run cs sv))
                <= successfulRequests (stats (run cs sv)) + failedRequests (stats (run cs sv))
                <= 2 * totalRequests (stats (run cs sv))).
  { induction cs as [|c cs IH]; intros sv H1 H2 H3; cbn [run fold_left].
    - auto.
    - fold (run cs (step sv c)).
      destruct (step_effect sv c) as (ds & df & _ & Es & Ef & Bs & Bf & B & _).
      pose proof (step_total sv c) as Et.
      apply IH; rewrite ?Es, ?Ef, ?Et; lia. }
  split.
  - rewrite run_total. reflexivity.
  - apply G; cbn; lia.
Qed.




(** ** Batch answers of another length *)

Lemma transformPrediction_inversion (perItem : float) (p : jsval) (ot : option string)
    (r : ApiResult) :
  transformPrediction perItem (p, ot) = Returns r ->
  text r = match ot with
           | Some t => if truthyString t then Some t else None
           | None => None
           end
  /\ processingTime r = perItem
  /\ sentiment r = field p "sentiment".
Proof.
  unfold transformPrediction. cbn [fst snd]. intro H.
  destruct (getProp p "sentiment") as [s|e] eqn:Es; cbn [bind] in H; [| discriminate].
  destruct (getProp p "confidence") as [c|e]; cbn [bind] in H; [| discriminate].
  destruct (getProp p "probabilities") as [q|e]; cbn [bind] in H; [| discriminate].
  apply transform_inversion in H. destruct H as (Hs & _ & Hp & _ & Hx & _).
  repeat split; try assumption.
  rewrite Hs. unfold field at 1 2. rewrite Es. reflexivity.
Qed.

(** X9. The gateway does not compare the number of predictions with the
    number of texts: a returned batch result has one element per
    prediction, each with the sentiment of its prediction and the measured
    time divided by the number of texts; an element whose index has no text
    carries none. *)
Theorem batch_result_follows_the_predictions
    (batch : list string) (options : Options) (ex : Exchange) (sv sv' : Service)
    (data : jsval) (preds : list jsval) (results : list ApiResult) :
  reply ex = Resolved data ->
  getProp data "predictions" = Returns (JArr preds) ->
  analyzeBatchSentiment batch options ex sv = (Returns results, sv') ->
  List.length results = List.length preds
  /\ forall (i : nat) (p : jsval),
       nth_error preds i = Some p ->
       exists r : ApiResult,
         nth_error results i = Some r
         /\ sentiment r = field p "sentiment"
         /\ processingTime r
            = PrimFloat.div (ofZ (clock ex 1 - clock ex 0)) (ofNat (List.length batch))
         /\ text r = match nth_error batch i with
                     | Some t => if truthyString t then Some t else None
                     | None => None
                     end.
Proof.
  intros Hreply Hpred.
  unfold analyzeBatchSentiment, transformPredictions. rewrite Hreply, Hpred. cbn [bind].
  set (perItem := PrimFloat.div (ofZ (clock ex 1 - clock ex 0)) (ofNat (List.length batch))).
  destruct (mapM (transformPrediction perItem) (withTexts preds 0 batch))
    as [rs|e] eqn:Em; intro H; [| discriminate H].
  injection H as <- _.
  apply mapM_Forall2, Forall2_nth in Em. destruct Em as [El En].
  rewrite withTexts_length in El. split; [exact El |].
  intros i p Hp.
  destruct (En i _ (@withTexts_nth preds 0 batch i p Hp)) as (r & Hr & Ht).
  cbn [Nat.add] in Ht. apply transformPrediction_inversion in Ht.
  destruct Ht as (Hx & Hq & Hs). exists r. repeat split; assumption.
Qed.

(** An answer with one prediction more than the batch has texts. *)
Definition surplusExchange : Exchange :=
  answeredAfter 40
    (Resolved (JObj [("predictions", JArr (twoPredictions ++ [JObj [("sentiment", JStr "Neutral")]]))])).

Lemma batch_result_follows_the_predictions_witness :
  exists results sv',
    analyzeBatchSentiment twoTexts noOptions surplusExchange initialService
    = (Returns results, sv')
    /\ List.length results = 3%nat
    /\ forall (i : nat) (p : jsval),
         nth_error (twoPredictions ++ [JObj [("sentiment", JStr "Neutral")]]) i = Some p ->
         exists r : ApiResult,
           nth_error results i = Some r
           /\ sentiment r = field p "sentiment"
           /\ processingTime r
              = PrimFloat.div (ofZ (clock surplusExchange 1 - clock surplusExchange 0))
                              (ofNat (List.length twoTexts))
           /\ text r = match nth_error twoTexts i with
                       | Some t => if truthyString t then Some t else None
                       | None => None
                       end.
Proof.
  destruct (analyzeBatchSentiment twoTexts noOptions surplusExchange initialService)
    as [[results | e] sv'] eqn:E; [| vm_compute in E; discriminate E].
  exists results, sv'. split; [reflexivity |].
  apply (@batch_result_follows_the_predictions twoTexts noOptions surplusExchange
           initialService sv'
           (JObj [("predictions", JArr (twoPredictions ++ [JObj [("sentiment", JStr "Neutral")]]))])
           (twoPredictions ++ [JObj [("sentiment", JStr "Neutral")]]) results);
    [reflexivity | reflexivity | exact E].
Defined.

(** ** Health, readiness and liveness *)

(** X10. [GET /health] reports "healthy" exactly when the probe of the
    inference endpoint was answered, whatever the answer holds, and
    [GET /health/ready] answers with the same status code: 200 exactly when
    the probe was answered, 503 otherwise. *)
Theorem readiness_agrees_with_health (responseTime : Z) (probe : Probe) :
  (overall (getHealth responseTime probe) = healthy
   <-> exists data, probe = ProbeAnswered data)
  /\ fst (getReady responseTime probe) = httpStatus (getHealth responseTime probe)
  /\ (fst (getReady responseTime probe) = 200 <-> exists data, probe = ProbeAnswered data)
  /\ (fst (getReady responseTime probe) = 200 \/ fst (getReady responseTime probe) = 503).
Proof.
  destruct probe as [data | msg]; cbn; repeat split; intros; eauto; try discriminate.
  - destruct H as [data H]. discriminate H.
  - destruct H as [data H]. discriminate H.
Qed.

Lemma lookup_assign (props : list (string * jsval)) (k k' : string) (v : jsval) :
  lookup k' (assign props k v) = if String.eqb k k' then v else lookup k' props.
Proof.
  unfold lookup. induction props as [|[k1 v1] rest IH]; cbn.
  - destruct (String.eqb k k'); reflexivity.
  - destruct (String.eqb_spec k1 k) as [-> | N]; cbn.
    + destruct (String.eqb k k'); reflexivity.
    + destruct (String.eqb_spec k1 k') as [-> | N'].
      * destruct (String.eqb_spec k k') as [-> | _]; [congruence | reflexivity].
      * exact IH.
Qed.

Definition hasKey (k : string) (props : list (string * jsval)) : bool :=
  existsb (fun kv => String.eqb (fst kv) k) props.

Lemma hasKey_In (k : string) (props : list (string * jsval)) :
  hasKey k props = true <-> In k (map fst props).
Proof.
  unfold hasKey. rewrite existsb_exists, in_map_iff. split.
  - intros (kv & Hin & E). apply String.eqb_eq in E. eauto.
  - intros (kv & E & Hin). exists kv. split; [exact Hin | now apply String.eqb_eq].
Qed.

Lemma lookup_spread (props base : list (string * jsval)) (k : string) :
  NoDup (map fst props) ->
  lookup k (fold_left (fun acc kv => assign acc (fst kv) (snd kv)) props base)
  = if hasKey k props then lookup k props else lookup k base.
Proof.
  revert base. induction props as [|[k1 v1] rest IH]; intros base Hd; [reflexivity |].
  cbn [fold_left fst snd]. inversion Hd as [|? ? Hnot Hrest]; subst.
  rewrite (IH _ Hrest). unfold hasKey at 2. cbn [existsb fst].
  fold (hasKey k rest). unfold lookup at 3. cbn [find fst snd].
  destruct (String.eqb_spec k1 k) as [-> | N]; cbn [orb].
  - destruct (hasKey k rest) eqn:Hk.
    + apply hasKey_In in Hk. contradiction.
    + rewrite lookup_assign, String.eqb_refl. reflexivity.
  - destruct (hasKey k rest); [reflexivity |].
    rewrite lookup_assign. destruct (String.eqb_spec k1 k); [contradiction | reflexivity].
Qed.

(** X11. [GET /health/detailed] spreads the body of the detailed probe over
    its own [status]: when the inference endpoint answers with an object
    that has a [status] property, that value is what the gateway reports for
    [mlService], and the overall status is "healthy" only if it is the
    string "healthy"; without such a property the answer alone makes it
    healthy.  [GET /health] reports "healthy" for every such answer. *)
Theorem detailed_health_takes_the_reported_status
    (responseTime : Z) (props : list (string * jsval)) :
  NoDup (map fst props) ->
  mlService (getHealthDetailed responseTime (ProbeAnswered (JObj props)))
  = (if hasKey "status" props then lookup "status" props else JStr "healthy")
  /\ (overall (getHealthDetailed responseTime (ProbeAnswered (JObj props))) = healthy
      <-> hasKey "status" props = false \/ lookup "status" props = JStr "healthy")
  /\ overall (getHealth responseTime (ProbeAnswered (JObj props))) = healthy.
Proof.
  intro Hd. unfold getHealthDetailed. cbn [mlService overall checkMLServiceHealth].
  unfold spread. cbn [entries]. rewrite (@lookup_spread props _ "status" Hd).
  split; [reflexivity |]. split; [| reflexivity].
  destruct (hasKey "status" props).
  - pose proof (isHealthy_iff (lookup "status" props)) as I.
    destruct (isHealthy (lookup "status" props)); cbn; split; intro H.
    + right. now apply I.
    + reflexivity.
    + discriminate H.
    + destruct H as [H | H]; [discriminate H |]. apply I in H. discriminate H.
  - cbn. split; auto.
Qed.

Lemma detailed_health_takes_the_reported_status_witness :
  mlService (getHealthDetailed 7 (ProbeAnswered (JObj [("status", JStr "ok"); ("version", JStr "1.0.0")])))
  = (if hasKey "status" [("status", JStr "ok"); ("version", JStr "1.0.0")]
     then lookup "status" [("status", JStr "ok"); ("version", JStr "1.0.0")]
     else JStr "healthy")
  /\ (overall (getHealthDetailed 7 (ProbeAnswered (JObj [("status", JStr "ok"); ("version", JStr "1.0.0")]))) = healthy
      <-> hasKey "status" [("status", JStr "ok"); ("version", JStr "1.0.0")] = false
          \/ lookup "status" [("status", JStr "ok"); ("version", JStr "1.0.0")] = JStr "healthy")
  /\ overall (getHealth 7 (ProbeAnswered (JObj [("status", JStr "ok"); ("version", JStr "1.0.0")]))) = healthy.
Proof.
  apply (@detailed_health_takes_the_reported_status 7
           [("status", JStr "ok"); ("version", JStr "1.0.0")]).
  repeat constructor; cbn; intuition discriminate.
Defined.

End ServiceProperties.

(* ================================================================== *)
(** * Further properties: the fallback scorer and the serverless function *)
(* ================================================================== *)

Module ScorerProperties.
Import JS Spec FallbackFacts StringFacts Frontend Fallback.

(** ** The returned distribution *)

Lemma winner_dominates (k : nat) :
  (k < 21)%nat ->
  let c := winnerConfidence k in
  PrimFloat.ltb (round2 ((1 - c) * 0.3)%float) (round2 c) = true
  /\ PrimFloat.ltb (round2 ((1 - c) * 0.7)%float) (round2 c) = true
  /\ getConfidenceLevel (round2 c) = (if (2 <=? k)%nat then High else Medium).
Proof. revert k. by_table. Qed.

Lemma neutral_dominates :
  PrimFloat.ltb (round2 ((1 - 0.7) * 0.5)%float) (round2 0.7%float) = true
  /\ getConfidenceLevel (round2 0.7%float) = Medium.
Proof. vm_compute. split; reflexivity. Qed.

(** X12. The label of a result is the class with the largest returned
    probability: the returned probability of the winning class is strictly
    greater than each of the other two. *)
Theorem label_has_the_largest_probability (text : string) :
  let r := analyzeSentimentSimple text in
  let p := probabilities r in
  match label r with
  | Positive =>
      PrimFloat.ltb (pNegative p) (pPositive p) = true
      /\ PrimFloat.ltb (pNeutral p) (pPositive p) = true
  | Negative =>
      PrimFloat.ltb (pPositive p) (pNegative p) = true
      /\ PrimFloat.ltb (pNeutral p) (pNegative p) = true
  | Neutral =>
      PrimFloat.ltb (pPositive p) (pNeutral p) = true
      /\ PrimFloat.ltb (pNegative p) (pNeutral p) = true
  end.
Proof.
  cbv zeta.
  pose proof (positiveScore_bound text) as Hp.
  pose proof (negativeScore_bound text) as Hn.
  rewrite analyze_scored. unfold scored.
  destruct (outcome text) as [Hlt E | Hlt E | Heq E]; rewrite E;
    cbn [label confidence probabilities createProbabilities pPositive pNegative pNeutral].
  - destruct (winner_dominates Hp) as (A & B & _). split; assumption.
  - destruct (winner_dominates Hn) as (A & B & _). split; assumption.
  - destruct neutral_dominates as (A & _). split; assumption.
Qed.

(** X13. Shown with the client's [getConfidenceLevel], a result of the
    fallback scorer is never of level Low; it is of level High exactly when
    one class wins with a count of at least 2. *)
Theorem fallback_confidence_level (text : string) :
  let p := positiveScoreOf text in
  let n := negativeScoreOf text in
  let level := getConfidenceLevel (confidence (analyzeSentimentSimple text)) in
  level <> Low
  /\ (level = High <-> p <> n /\ (2 <= Nat.max p n)%nat).
Proof.
  cbv zeta.
  pose proof (positiveScore_bound text) as Hp.
  pose proof (negativeScore_bound text) as Hn.
  rewrite analyze_scored. unfold scored.
  destruct (outcome text) as [Hlt E | Hlt E | Heq E]; rewrite E; cbn [confidence].
  - destruct (winner_dominates Hp) as (_ & _ & ->).
    destruct (Nat.leb_spec 2 (positiveScoreOf text)) as [L | L]; split;
      try discriminate; split; intro H; try discriminate H; try reflexivity; lia.
  - destruct (winner_dominates Hn) as (_ & _ & ->).
    destruct (Nat.leb_spec 2 (negativeScoreOf text)) as [L | L]; split;
      try discriminate; split; intro H; try discriminate H; try reflexivity; lia.
  - destruct neutral_dominates as (_ & ->). split; [discriminate |].
    split; intro H; [discriminate H | lia].
Qed.

(** The hundredths of a winner's result add up to 100, or to 101 at the
    cap. *)
Lemma winner_hundredths (k : nat) :
  (k < 21)%nat ->
  let C := Z.min (60 + 10 * Z.of_nat k) 95 in
  (C + roundDiv (3 * (100 - C)) 10 + roundDiv (7 * (100 - C)) 10
   =? (if (4 <=? k)%nat then 101 else 100)) = true.
Proof. revert k. by_table. Qed.

(** X14. Read in hundredths, the three returned probabilities add up to 100,
    except when a class wins with a count of 4 or more (confidence 0.95):
    then they add up to 101. *)
Theorem returned_probabilities_add_up (text : string) :
  let r := analyzeSentimentSimple text in
  let p := positiveScoreOf text in
  let n := negativeScoreOf text in
  exists a b c : Z,
    pPositive (probabilities r) = hundredths a
    /\ pNegative (probabilities r) = hundredths b
    /\ pNeutral (probabilities r) = hundredths c
    /\ a + b + c = (if negb (p =? n)%nat && (4 <=? Nat.max p n)%nat then 101 else 100).
Proof.
  cbv zeta.
  pose proof (positiveScore_bound text) as Hp.
  pose proof (negativeScore_bound text) as Hn.
  rewrite analyze_scored. unfold scored.
  destruct (outcome text) as [Hlt E | Hlt E | Heq E]; rewrite E;
    cbn [label confidence probabilities createProbabilities pPositive pNegative pNeutral].
  - destruct (winner_confidence_table Hp) as [T _].
    destruct (winner_table Hp) as (A & B & _).
    pose proof (winner_hundredths Hp) as S. cbv zeta in S. apply Z.eqb_eq in S.
    eexists; eexists; eexists. split; [exact T |]. split; [exact A |]. split; [exact B |].
    rewrite Nat.max_l by lia.
    destruct (Nat.eqb_spec (positiveScoreOf text) (negativeScoreOf text)); [lia |].
    cbn [negb andb]. lia.
  - destruct (winner_confidence_table Hn) as [T _].
    destruct (winner_table Hn) as (A & B & _).
    pose proof (winner_hundredths Hn) as S. cbv zeta in S. apply Z.eqb_eq in S.
    eexists; eexists; eexists. split; [exact A |]. split; [exact T |]. split; [exact B |].
    rewrite Nat.max_r by lia.
    destruct (Nat.eqb_spec (positiveScoreOf text) (negativeScoreOf text)); [lia |].
    cbn [negb andb]. lia.
  - destruct neutral_table as (T & A & _).
    eexists; eexists; eexists. split; [exact A |]. split; [exact A |]. split; [exact T |].
    rewrite Heq, Nat.eqb_refl. reflexivity.
Qed.

(** ** Letter case and surrounding whitespace *)

Lemma lowerChar_idempotent (c : ascii) : lowerChar (lowerChar c) = lowerChar c.
Proof. destruct c as [[] [] [] [] [] [] [] []]; reflexivity. Qed.

Lemma lowerChar_whitespace (c : ascii) : isWhitespace (lowerChar c) = isWhitespace c.
Proof. destruct c as [[] [] [] [] [] [] [] []]; reflexivity. Qed.

Lemma toLowerCase_idempotent (s : string) : toLowerCase (toLowerCase s) = toLowerCase s.
Proof.
  induction s as [|c s IH]; cbn; [reflexivity |]. now rewrite lowerChar_idempotent, IH.
Qed.

Lemma toLowerCase_ltrim (s : string) : toLowerCase (ltrim s) = ltrim (toLowerCase s).
Proof.
  induction s as [|c s IH]; cbn; [reflexivity |].
  rewrite lowerChar_whitespace. destruct (isWhitespace c); [exact IH | reflexivity].
Qed.

Lemma toLowerCase_rtrim (s : string) : toLowerCase (rtrim s) = rtrim (toLowerCase s).
Proof.
  induction s as [|c s IH]; cbn; [reflexivity |].
  rewrite <- IH, lowerChar_whitespace.
  destruct (rtrim s); cbn; [destruct (isWhitespace c) |]; reflexivity.
Qed.

Lemma toLowerCase_trim (s : string) : toLowerCase (trim s) = trim (toLowerCase s).
Proof. unfold trim. now rewrite toLowerCase_rtrim, toLowerCase_ltrim. Qed.

(** A word without whitespace. *)
Fixpoint solid (w : string) : bool :=
  match w with
  | EmptyString => true
  | String c w' => negb (isWhitespace c) && solid w'
  end.

Definition properWord (w : string) : bool := truthyString w && solid w.

Lemma prefix_empty (s : string) : String.prefix "" s = true.
Proof. destruct s; reflexivity. Qed.

Lemma prefix_cons (d c : ascii) (w s : string) :
  String.prefix (String d w) (String c s)
  = if ascii_dec d c then String.prefix w s else false.
Proof. reflexivity. Qed.

Lemma prefix_whitespace (w : string) (c : ascii) (s : string) :
  properWord w = true -> isWhitespace c = true -> String.prefix w (String c s) = false.
Proof.
  destruct w as [|d w]; [discriminate |]. unfold properWord. cbn [truthyString solid andb].
  intros H W. apply andb_true_iff in H. destruct H as [H _].
  rewrite prefix_cons. destruct (ascii_dec d c) as [-> | _]; [| reflexivity].
  rewrite W in H. discriminate H.
Qed.

Lemma includes_ltrim (s w : string) :
  properWord w = true -> includes (ltrim s) w = includes s w.
Proof.
  intro H. induction s as [|c s IH]; [reflexivity |].
  cbn [ltrim]. destruct (isWhitespace c) eqn:W; [| reflexivity].
  rewrite IH. cbn [includes]. now rewrite (@prefix_whitespace w c s H W).
Qed.

Lemma prefix_rtrim (w s : string) :
  solid w = true -> String.prefix w (rtrim s) = String.prefix w s.
Proof.
  revert w. induction s as [|c s IH]; intros w H; [reflexivity |].
  destruct w as [|d w]; [now rewrite !prefix_empty |].
  cbn [solid] in H. apply andb_true_iff in H. destruct H as [Hd Hw].
  specialize (IH w Hw). cbn [rtrim]. destruct (rtrim s) as [|e r].
  - destruct (isWhitespace c) eqn:W.
    + rewrite prefix_cons. destruct (ascii_dec d c) as [-> | _]; [| reflexivity].
      rewrite W in Hd. discriminate Hd.
    + rewrite !prefix_cons. destruct (ascii_dec d c); [exact IH | reflexivity].
  - rewrite !prefix_cons. destruct (ascii_dec d c); [exact IH | reflexivity].
Qed.

Lemma includes_rtrim (s w : string) :
  properWord w = true -> includes (rtrim s) w = includes s w.
Proof.
  intro H. pose proof H as H'. unfold properWord in H'.
  apply andb_true_iff in H'. destruct H' as [_ Hs].
  induction s as [|c s IH]; [reflexivity |].
  pose proof (@prefix_rtrim w (String c s) Hs) as P.
  cbn [rtrim] in P |- *. destruct (rtrim s) as [|e r].
  - destruct (isWhitespace c) eqn:W.
    + cbn [includes]. rewrite <- IH, (@prefix_whitespace w c s H W). reflexivity.
    + cbn [includes] in IH |- *. rewrite P, <- IH. reflexivity.
  - cbn [includes] in IH |- *. rewrite P, <- IH. reflexivity.
Qed.

Lemma includes_trim (s w : string) :
  properWord w = true -> includes (trim s) w = includes s w.
Proof. intro H. unfold trim. now rewrite includes_rtrim, includes_ltrim. Qed.

Lemma countWords_trim (words : list string) (s : string) :
  forallb properWord words = true -> countWords words (trim s) = countWords words s.
Proof.
  unfold countWords. generalize 0%nat.
  induction words as [|w words IH]; intros acc H; [reflexivity |].
  cbn [forallb] in H. apply andb_true_iff in H. destruct H as [Hw Hr].
  cbn [fold_left]. rewrite (@includes_trim s w Hw). now apply IH.
Qed.

(** X15. The score does not depend on letter case or on whitespace around
    the text: lower-casing the text, or trimming it, gives the same
    result. *)
Theorem score_ignores_case_and_outer_whitespace (text : string) :
  analyzeSentimentSimple (toLowerCase text) = analyzeSentimentSimple text
  /\ analyzeSentimentSimple (trim text) = analyzeSentimentSimple text.
Proof.
  split.
  - rewrite !analyze_scored. unfold positiveScoreOf, negativeScoreOf.
    now rewrite toLowerCase_idempotent.
  - rewrite !analyze_scored. unfold positiveScoreOf, negativeScoreOf.
    rewrite toLowerCase_trim.
    rewrite (@countWords_trim positiveWords (toLowerCase text)) by reflexivity.
    rewrite (@countWords_trim negativeWords (toLowerCase text)) by reflexivity.
    reflexivity.
Qed.

(** ** The serverless function *)

Lemma firstChars_length (n : nat) (s : string) :
  String.length (Serverless.firstChars n s) = Nat.min n (String.length s).
Proof.
  unfold Serverless.firstChars. revert n.
  induction s as [|c s IH]; intros [|n]; cbn; try reflexivity. now rewrite IH.
Qed.

Lemma firstChars_prefix (n : nat) (s : string) :
  String.prefix (Serverless.firstChars n s) s = true.
Proof.
  unfold Serverless.firstChars. revert n.
  induction s as [|c s IH]; intros [|n]; cbn; try reflexivity.
  destruct (ascii_dec c c); [apply IH | congruence].
Qed.

(** X16. The serverless function answers with an analysis exactly for a
    POST whose body has a string [text] that is not empty once trimmed.
    The analysis is that of the text as sent, and the text echoed in the
    answer is the first 100 characters of it: a prefix of the text, of
    length [min(100, length)]. *)
Theorem serverless_analysis (method : Serverless.Method) (body : jsval) :
  (forall data : Serverless.Payload,
      Serverless.handler method body = Serverless.Analyzed data ->
      method = Serverless.POST
      /\ exists text : string,
           getProp body "text" = Returns (JStr text)
           /\ trim text <> ""
           /\ Serverless.sentiment data = label (analyzeSentimentSimple text)
           /\ Serverless.confidence data = confidence (analyzeSentimentSimple text)
           /\ Serverless.probabilities data = probabilities (analyzeSentimentSimple text)
           /\ String.prefix (Serverless.text data) text = true
           /\ String.length (Serverless.text data) = Nat.min 100 (String.length text))
  /\ (forall text : string,
         method = Serverless.POST ->
         getProp body "text" = Returns (JStr text) ->
         trim text <> "" ->
         exists data, Serverless.handler method body = Serverless.Analyzed data).
Proof.
  split.
  - intros data H. unfold Serverless.handler in H.
    destruct method; try discriminate H. split; [reflexivity |].
    destruct (getProp body "text") as [v | e]; [| discriminate H].
    destruct v as [ | | | | text | | ]; try discriminate H.
    destruct (negb (truthyString text) || (String.length (trim text) =? 0)%nat) eqn:C;
      [discriminate H |].
    injection H as <-. exists text. cbn.
    apply orb_false_iff in C. destruct C as [_ C]. apply Nat.eqb_neq in C.
    repeat split.
    + intro E. rewrite E in C. now apply C.
    + apply firstChars_prefix.
    + apply firstChars_length.
  - intros text -> Hb Ht. unfold Serverless.handler. rewrite Hb.
    assert (C : negb (truthyString text) || (String.length (trim text) =? 0)%nat = false).
    { apply orb_false_iff. split.
      - destruct text; [now elim Ht | reflexivity].
      - apply Nat.eqb_neq. destruct (trim text); [now elim Ht | discriminate]. }
    rewrite C. eexists; reflexivity.
Qed.

End ScorerProperties.

(* ================================================================== *)
(** * Further properties: the client *)
(* ================================================================== *)

Module ClientProperties.
Import JS SentimentService Routes Spec Scenarios GatewayFacts StringFacts
       ServiceProperties Frontend.

(** ** Validation on both sides *)

(** X17. A text the client's [validateText] accepts is never refused by the
    gateway: the request [handleAnalyze] builds for it is not answered 400,
    and the inference endpoint receives the trimmed text with the model
    "random_forest". *)
Theorem client_validated_text_is_accepted (text : string) (ex : Exchange) (sv : Service) :
  isValid (validateText text) = true ->
  status (fst (postAnalyze (analysisRequest text) ex sv)) <> 400
  /\ exists call : UpstreamCall,
       dispatched (snd (postAnalyze (analysisRequest text) ex sv)) = call :: dispatched sv
       /\ texts call = [trim text]
       /\ model call = "random_forest"
       /\ include_probabilities call = true.
Proof.
  unfold validateText. intro H.
  destruct (negb (truthyString text) || (String.length (trim text) =? 0)%nat) eqn:C;
    [discriminate H |].
  destruct (Nat.ltb_spec 5000 (String.length text)) as [L | L]; [discriminate H |].
  apply orb_false_iff in C. destruct C as [_ C]. apply Nat.eqb_neq in C.
  pose proof (trim_length text) as T.
  assert (S : sanitizeText (bodyText (analysisRequest text)) = trim text).
  { unfold analysisRequest, sanitizeText. cbn [bodyText]. apply trim_idempotent. }
  assert (V : textOk (sanitizeText (bodyText (analysisRequest text)))
              && modelOk (bodyOptions (analysisRequest text)) = true).
  { rewrite S. apply andb_true_iff. split; [| reflexivity].
    unfold textOk. apply andb_true_iff. split; [apply Nat.leb_le | apply Nat.leb_le]; lia. }
  apply validation_nil in V. split.
  - destruct (@postAnalyze_status (analysisRequest text) ex sv V) as [E | [E | E]];
      rewrite E; discriminate.
  - rewrite (@postAnalyze_accepts _ ex sv V).
    destruct (analyze_dispatches (analysisRequest text) ex sv) as (call & D & _ & Tx & M & _).
    rewrite S in *.
    exists call. 
    assert (I : include_probabilities call = true).
    { revert D. unfold analyzeSentiment, analyzeCatch.
      destruct (reply ex) as [data | e]; [destruct (transformMLResponse data _ None) |];
        cbn [snd dispatched withStats dispatch]; intro D; injection D as <-; reflexivity. }
    split; [| split; [exact Tx | split; [exact M | exact I]]].
    revert D. destruct (analyzeSentiment (trim text) _ ex sv) as [[r | e] sv']; cbn [snd]; auto.
Qed.

Lemma client_validated_text_is_accepted_witness :
  status (fst (postAnalyze (analysisRequest "  I love it ") (answeredAfter 12 positiveAnswer)
                           initialService)) <> 400
  /\ exists call : UpstreamCall,
       dispatched (snd (postAnalyze (analysisRequest "  I love it ")
                                    (answeredAfter 12 positiveAnswer) initialService))
       = call :: dispatched initialService
       /\ texts call = [trim "  I love it "]
       /\ model call = "random_forest"
       /\ include_probabilities call = true.
Proof.
  apply (@client_validated_text_is_accepted "  I love it "
           (answeredAfter 12 positiveAnswer) initialService).
  vm_compute. reflexivity.
Defined.

(** X18. Sanitizing is idempotent: the text the gateway hands on is already
    trimmed, and a request that carries it is validated to the same text
    and the same errors. *)
Theorem sanitized_text_is_stable (b : AnalyzeBody) :
  trim (fst (validateTextInput b)) = fst (validateTextInput b)
  /\ validateTextInput {| bodyText := Some (fst (validateTextInput b));
                          bodyOptions := bodyOptions b |}
     = validateTextInput b.
Proof.
  unfold validateTextInput, sanitizeText. cbn [fst bodyText bodyOptions].
  rewrite trim_idempotent. split; reflexivity.
Qed.

(** ** [truncateText] *)

Lemma append_length (a b : string) :
  String.length (a ++ b) = (String.length a + String.length b)%nat.
Proof. induction a as [|c a IH]; cbn; [reflexivity | now rewrite IH]. Qed.

Lemma substring0_length (n : nat) (s : string) :
  String.length (String.substring 0 n s) = Nat.min n (String.length s).
Proof.
  revert n. induction s as [|c s IH]; intros [|n]; cbn; try reflexivity. now rewrite IH.
Qed.

Lemma substring0_prefix (n : nat) (s : string) :
  String.prefix (String.substring 0 n s) s = true.
Proof.
  revert n. induction s as [|c s IH]; intros [|n]; cbn; try reflexivity.
  destruct (ascii_dec c c); [apply IH | congruence].
Qed.

(** X19. [truncateText] returns a text that fits unchanged; a longer text is
    cut to a prefix followed by "...", and the result is exactly
    [max(maxLength, 3)] characters long: it respects [maxLength] whenever
    [maxLength] is at least 3, and is the bare "..." below that. *)
Theorem truncateText_length (text : string) (maxLength : Z) :
  (Z.of_nat (String.length text) <= maxLength -> truncateText text maxLength = text)
  /\ (maxLength < Z.of_nat (String.length text) ->
      exists head : string,
        truncateText text maxLength = head ++ "..."
        /\ String.prefix head text = true
        /\ Z.of_nat (String.length head) = Z.max (maxLength - 3) 0
        /\ Z.of_nat (String.length (truncateText text maxLength)) = Z.max maxLength 3)
  /\ Z.of_nat (String.length (truncateText text maxLength))
     <= Z.max maxLength 3.
Proof.
  unfold truncateText, substringTo.
  destruct (Z.leb_spec (Z.of_nat (String.length text)) maxLength) as [L | L].
  - split; [reflexivity |]. split; [lia | lia].
  - assert (H : Z.of_nat (String.length (String.substring 0 (Z.to_nat (maxLength - 3)) text))
                = Z.max (maxLength - 3) 0).
    { rewrite substring0_length. lia. }
    split; [lia |]. split.
    + intros _. eexists. split; [reflexivity |]. split; [apply substring0_prefix |].
      split; [exact H |]. rewrite append_length. cbn [String.length]. lia.
    + rewrite append_length. cbn [String.length]. lia.
Qed.

(** ** [getRelativeTime] *)

(** X20. [getRelativeTime] answers by the age [now - date] in milliseconds:
    'just now' below one minute (a date in the future included), then whole
    minutes from 1 to 59, whole hours from 1 to 23, whole days from 1 to 6,
    and the date itself from seven days on. *)
Theorem relative_time_buckets (now date : Z) :
  let age := now - date in
  match getRelativeTime now date with
  | JustNow => age < 60000
  | MinutesAgo n => 60000 <= age < 3600000 /\ n = age / 60000 /\ 1 <= n <= 59
  | HoursAgo n => 3600000 <= age < 86400000 /\ n = age / 3600000 /\ 1 <= n <= 23
  | DaysAgo n => 86400000 <= age < 604800000 /\ n = age / 86400000 /\ 1 <= n <= 6
  | OnDate => 604800000 <= age
  end.
Proof.
  cbv zeta. unfold getRelativeTime.
  set (age := now - date).
  assert (M : age / 1000 / 60 = age / 60000) by (rewrite Z.div_div by lia; reflexivity).
  assert (H : age / 1000 / 60 / 60 = age / 3600000) by (rewrite !Z.div_div by lia; reflexivity).
  assert (D : age / 1000 / 60 / 60 / 24 = age / 86400000) by (rewrite !Z.div_div by lia; reflexivity).
  rewrite D, H, M.
  destruct (Z.ltb_spec (age / 1000) 60) as [A | A];
    [| destruct (Z.ltb_spec (age / 60000) 60) as [B | B];
       [| destruct (Z.ltb_spec (age / 3600000) 24) as [C | C];
          [| destruct (Z.ltb_spec (age / 86400000) 7) as [E | E]]]];
    repeat split; Z.to_euclidean_division_equations; lia.
Qed.

(** ** [retryWithBackoff] *)

Section RetryFacts.

Variables T E : Type.
Variable fn : nat -> T + E.
Variable maxRetries : nat.
Variable baseDelay : Z.

(** The delay slept after the failure of attempt [i]. *)
Definition backoff (i : nat) : Z := baseDelay * 2 ^ Z.of_nat i.

Definition total (delays : list Z) : Z := fold_right Z.add 0 delays.

Lemma retryLoop_success (k : nat) (value : T) :
  fn k = inl value ->
  (forall j, (j < k)%nat -> exists error, fn j = inr error) ->
  forall (d i : nat) (lastError : option E),
    (i + d = k)%nat -> (k < maxRetries)%nat ->
    retryLoop fn maxRetries baseDelay (maxRetries - i) i lastError
    = (Resolves E value, map backoff (seq i d)).
Proof.
  intros Hk Hfail. induction d as [|d IH]; intros i lastError Hi Hlt.
  - replace i with k in * by lia.
    destruct (maxRetries - k)%nat as [|r] eqn:R; [lia |]. cbn. now rewrite Hk.
  - destruct (maxRetries - i)%nat as [|r] eqn:R; [lia |].
    destruct (Hfail i ltac:(lia)) as [error Hi'].
    cbn [retryLoop seq map]. rewrite Hi'.
    destruct (Nat.eqb_spec i (maxRetries - 1)) as [Eq | _]; [lia |].
    replace r with (maxRetries - S i)%nat by lia.
    rewrite (IH (S i) (Some error)) by lia. reflexivity.
Qed.

Lemma retryLoop_exhausted (m : nat) (errors : nat -> E) :
  maxRetries = S m ->
  (forall j, (j <= m)%nat -> fn j = inr (errors j)) ->
  forall (d i : nat) (lastError : option E),
    (i + d = m)%nat ->
    retryLoop fn maxRetries baseDelay (maxRetries - i) i lastError
    = (Rejects T (Some (errors m)), map backoff (seq i d)).
Proof.
  intros Hm Hfail. induction d as [|d IH]; intros i lastError Hi.
  - replace i with m in * by lia. rewrite Hm.
    replace (S m - m)%nat with 1%nat by lia. cbn [retryLoop].
    rewrite (Hfail m) by lia.
    replace (S m - 1)%nat with m by lia. now rewrite Nat.eqb_refl.
  - destruct (maxRetries - i)%nat as [|r] eqn:R; [lia |].
    cbn [retryLoop seq map]. rewrite (Hfail i) by lia.
    destruct (Nat.eqb_spec i (maxRetries - 1)) as [Eq | _]; [lia |].
    replace r with (maxRetries - S i)%nat by lia.
    rewrite (IH (S i) (Some (errors i))) by lia. reflexivity.
Qed.

Lemma total_backoff (i d : nat) :
  total (map backoff (seq i d)) = baseDelay * 2 ^ Z.of_nat i * (2 ^ Z.of_nat d - 1).
Proof.
  revert i. induction d as [|d IH]; intro i; cbn [seq map total fold_right].
  - cbn. lia.
  - fold (total (map backoff (seq (S i) d))). rewrite IH. unfold backoff.
    rewrite !Nat2Z.inj_succ, !Z.pow_succ_r by lia. ring.
Qed.

(** X21. [retryWithBackoff] resolves with the first attempt that succeeds,
    provided it comes within [maxRetries] attempts: if the attempts before
    attempt [k] fail and attempt [k] succeeds, its value is returned, the
    delays slept are [baseDelay * 2^j] for [j = 0 .. k-1], in this order,
    and they add up to [baseDelay * (2^k - 1)]. *)
Theorem retry_resolves_with_the_first_success (k : nat) (value : T) :
  (k < maxRetries)%nat ->
  fn k = inl value ->
  (forall j, (j < k)%nat -> exists error, fn j = inr error) ->
  retryWithBackoff fn maxRetries baseDelay
  = (Resolves E value, map backoff (seq 0 k))
  /\ total (snd (retryWithBackoff fn maxRetries baseDelay))
     = baseDelay * (2 ^ Z.of_nat k - 1).
Proof.
  intros Hlt Hk Hfail.
  assert (R : retryWithBackoff fn maxRetries baseDelay
              = (Resolves E value, map backoff (seq 0 k))).
  { unfold retryWithBackoff.
    replace maxRetries with (maxRetries - 0)%nat at 2 by lia.
    apply (@retryLoop_success k value Hk Hfail k 0%nat None); lia. }
  rewrite R. split; [reflexivity |]. cbn [snd]. rewrite total_backoff. cbn. lia.
Qed.

(** X22. When all [maxRetries >= 1] attempts fail, [retryWithBackoff]
    rejects with the error of the last attempt after exactly [maxRetries]
    attempts: it has slept [maxRetries - 1] times, never after the last
    failure. *)
Theorem retry_rejects_with_the_last_error (m : nat) (errors : nat -> E) :
  maxRetries = S m ->
  (forall j, (j <= m)%nat -> fn j = inr (errors j)) ->
  retryWithBackoff fn maxRetries baseDelay
  = (Rejects T (Some (errors m)), map backoff (seq 0 m))
  /\ List.length (snd (retryWithBackoff fn maxRetries baseDelay)) = m.
Proof.
  intros Hm Hfail.
  assert (R : retryWithBackoff fn maxRetries baseDelay
              = (Rejects T (Some (errors m)), map backoff (seq 0 m))).
  { unfold retryWithBackoff.
    replace maxRetries with (maxRetries - 0)%nat at 2 by lia.
    apply (@retryLoop_exhausted m errors Hm Hfail m 0%nat None); lia. }
  rewrite R. split; [reflexivity |]. cbn [snd]. now rewrite length_map, length_seq.
Qed.

End RetryFacts.

(** A function that fails twice and then resolves with 7, and one that
    always fails with its attempt number. *)
Definition thirdTimeLucky (i : nat) : Z + string :=
  if (i <? 2)%nat then inr "busy" else inl 7.

Definition neverLucky (i : nat) : Z + nat := inr i.

Lemma retry_resolves_with_the_first_success_witness :
  retryWithBackoff thirdTimeLucky 3 1000
  = (Resolves string 7, map (backoff 1000) (seq 0 2))
  /\ total (snd (retryWithBackoff thirdTimeLucky 3 1000)) = 1000 * (2 ^ Z.of_nat 2 - 1).
Proof.
  apply (@retry_resolves_with_the_first_success Z string thirdTimeLucky 3 1000 2%nat 7).
  - lia.
  - reflexivity.
  - intros j Hj. exists "busy". unfold thirdTimeLucky.
    destruct (Nat.ltb_spec j 2); [reflexivity | lia].
Defined.

Lemma retry_rejects_with_the_last_error_witness :
  retryWithBackoff neverLucky 3 1000
  = (Rejects Z (Some 2%nat), map (backoff 1000) (seq 0 2))
  /\ List.length (snd (retryWithBackoff neverLucky 3 1000)) = 2%nat.
Proof.
  apply (@retry_rejects_with_the_last_error Z nat neverLucky 3 1000 2%nat (fun j => j)).
  - reflexivity.
  - intros j Hj. reflexivity.
Defined.

End ClientProperties.
